(** * TAMS maintenance planning: a shallow embedding of the scheduling logic

    The definitions below follow the TypeScript sources of the planning page
    ([PlanningNew], with [handleAutoSchedule], [calculateOptimalScheduling]
    and [generateRecommendations]) and of the anomaly views
    ([calculateCriticalityLevel]).

    JavaScript numbers are modelled as exact rationals ([Q]), with [NaN]
    added where an operand of the arithmetic may not be a number;
    [undefined] and [null] fields are [None]; object literals are
    [gmap string _] with the members they inherit from [Object.prototype],
    and [Set]s of identifiers are [gset string]. *)

From Stdlib Require Import QArith Qabs Qminmax Lia Lqa Sorted.
From stdpp Require Import gmap strings list pretty.

Local Open Scope Q_scope.

#[local] Set Warnings "-clear-no-such-hyp".

(** ** JavaScript operators used by the sources *)

Module JS.

(** [a ?? b] on two optional values. *)
Definition nullish {A : Type} (a b : option A) : option A :=
  match a with
  | Some v => Some v
  | None => b
  end.

(** [a ?? d] where [d] is a plain value. *)
Definition nullish_or {A : Type} (a : option A) (d : A) : A :=
  match a with
  | Some v => v
  | None => d
  end.

(** Truthiness of a number: everything but zero. *)
Definition truthy_number (x : Q) : bool := negb (Qeq_bool x 0).

(** [x || d] for an optional number [x]. *)
Definition or_number (x : option Q) (d : Q) : Q :=
  match x with
  | Some v => if truthy_number v then v else d
  | None => d
  end.

(** Truthiness of an optional string: present and not empty. *)
Definition truthy_string (s : option string) : bool :=
  match s with
  | Some v => negb (String.eqb v "")
  | None => false
  end.

(** [x > y] and [x < y] on numbers. *)
Definition gt (x y : Q) : bool := negb (Qle_bool x y).
Definition lt (x y : Q) : bool := negb (Qle_bool y x).
Definition ge (x y : Q) : bool := Qle_bool y x.

(** The number of a length or of a size. *)
Definition of_nat (n : nat) : Q := inject_Z (Z.of_nat n).

(** What an arithmetic operator returns: a rational, or [NaN] when an
    operand was not a number. *)
Inductive number : Type :=
  | Num (q : Q)
  | NaN.

Definition mul (x y : number) : number :=
  match x, y with
  | Num a, Num b => Num (a * b)
  | _, _ => NaN
  end.

(** [x / y]; the divisors of the sources are never zero. *)
Definition div (x y : number) : number :=
  match x, y with
  | Num a, Num b => Num (a / b)
  | _, _ => NaN
  end.

Definition sub (x y : number) : number :=
  match x, y with
  | Num a, Num b => Num (a - b)
  | _, _ => NaN
  end.

(** [x === q] and [x <= y] as propositions: [NaN] equals nothing and
    compares with nothing. *)
Definition equals (x : number) (q : Q) : Prop :=
  match x with
  | Num v => v == q
  | NaN => False
  end.



(** The value that [Array.prototype.sort] reads from its callback: a result
    of [NaN] counts as [+0]. *)
Definition sort_order (x : number) : Q :=
  match x with
  | Num v => v
  | NaN => 0
  end.

(** The names of the members that every object literal inherits from
    [Object.prototype].  Where the object has no own property of that name,
    [o[k]] finds the inherited member: a function, or the prototype object
    for [__proto__]; it is truthy and it is not a number. *)
Definition objectPrototype : list string :=
  ["constructor"; "__defineGetter__"; "__defineSetter__"; "hasOwnProperty";
   "__lookupGetter__"; "__lookupSetter__"; "isPrototypeOf";
   "propertyIsEnumerable"; "toString"; "valueOf"; "__proto__";
   "toLocaleString"]%string.

Definition inherited (k : string) : bool := bool_decide (k ∈ objectPrototype).

(** [o[k] = v] for a value [v] that is not an object: an own property is
    written, except under the name [__proto__], whose inherited setter
    ignores such a value. *)
Definition assign {A : Type} (o : gmap string A) (k : string) (v : A)
    : gmap string A :=
  if String.eqb k "__proto__" then o else <[k := v]> o.

End JS.

(** ** Data model *)

Module Anomaly.
Record t : Type := mk {
  id : string;
  status : string;
  criticalityLevel : string;
  equipmentId : option string;
  maintenanceWindowId : option string;
  fiabiliteIntegriteScore : option Q;
  disponibiliteScore : option Q;
  processSafetyScore : option Q;
  userFiabiliteIntegriteScore : option Q;
  userDisponibiliteScore : option Q;
  userProcessSafetyScore : option Q
}.

(** [{ ...anomaly, maintenanceWindowId: w }] *)
Definition with_window (a : t) (w : option string) : t :=
  mk (id a) (status a) (criticalityLevel a) (equipmentId a) w
     (fiabiliteIntegriteScore a) (disponibiliteScore a) (processSafetyScore a)
     (userFiabiliteIntegriteScore a) (userDisponibiliteScore a)
     (userProcessSafetyScore a).
End Anomaly.

Module ActionPlan.
Record t : Type := mk {
  anomalyId : string;
  totalDurationDays : Q
}.
End ActionPlan.

Module MaintenanceWindow.
Record t : Type := mk {
  id : string;
  type : string;
  durationDays : Q;
  startDate : Z;
  status : string;
  autoCreated : bool
}.
End MaintenanceWindow.

(** ** Criticality level of an anomaly (AnomalyTable, Dashboard) *)

(** The three local constants of [calculateCriticalityLevel]:
    [anomaly.userXScore ?? anomaly.xScore ?? 0]. *)
Definition fiabiliteIntegriteScore (anomaly : Anomaly.t) : Q :=
  JS.nullish_or (JS.nullish (Anomaly.userFiabiliteIntegriteScore anomaly)
                            (Anomaly.fiabiliteIntegriteScore anomaly)) 0.

Definition disponibiliteScore (anomaly : Anomaly.t) : Q :=
  JS.nullish_or (JS.nullish (Anomaly.userDisponibiliteScore anomaly)
                            (Anomaly.disponibiliteScore anomaly)) 0.

Definition processSafetyScore (anomaly : Anomaly.t) : Q :=
  JS.nullish_or (JS.nullish (Anomaly.userProcessSafetyScore anomaly)
                            (Anomaly.processSafetyScore anomaly)) 0.

Definition totalScore (anomaly : Anomaly.t) : Q :=
  fiabiliteIntegriteScore anomaly + disponibiliteScore anomaly
  + processSafetyScore anomaly.

Definition calculateCriticalityLevel (anomaly : Anomaly.t) : string :=
  if JS.ge (totalScore anomaly) 9 then "critical"
  else if JS.ge (totalScore anomaly) 7 then "high"
  else if JS.ge (totalScore anomaly) 3 then "normal"
  else "low".

(** ** Scoring of treated anomalies ([calculateOptimalScheduling]) *)

Definition criticalityWeights : gmap string Q :=
  list_to_map [("critical"%string, 10); ("high"%string, 7);
               ("medium"%string, 4); ("low"%string, 1)].

(** [{ critical: 10, high: 7, medium: 4, low: 1 }[level] || 1] as the
    multiplication reads it: the entry of the table, 1 for a name that the
    object does not know, and [NaN] for a name that the object inherits,
    whose member is truthy (so that [|| 1] keeps it) and not a number. *)
Definition criticalityWeight (level : string) : JS.number :=
  match criticalityWeights !! level with
  | None => if JS.inherited level then JS.NaN else JS.Num 1
  | own => JS.Num (JS.or_number own 1)
  end.

Definition equipmentFactor (anomaly : Anomaly.t) : Q :=
  if JS.truthy_string (Anomaly.equipmentId anomaly) then 1.2 else 1.0.

(** [actionPlans.find(ap => ap.anomalyId === anomaly.id)] *)
Definition findActionPlan (actionPlans : list ActionPlan.t)
    (anomaly : Anomaly.t) : option ActionPlan.t :=
  List.find (fun ap => String.eqb (ActionPlan.anomalyId ap) (Anomaly.id anomaly))
            actionPlans.

(** [plan?.totalDurationDays || 1] *)
Definition durationOrOne (plan : option ActionPlan.t) : Q :=
  JS.or_number (ActionPlan.totalDurationDays <$> plan) 1.

Record ScoredAnomaly : Type := mkScored {
  anomaly : Anomaly.t;
  urgencyScore : JS.number;
  processingTime : Q;
  efficiency : JS.number;
  actionPlan : option ActionPlan.t
}.

Definition scoreAnomaly (actionPlans : list ActionPlan.t)
    (a : Anomaly.t) : ScoredAnomaly :=
  let actionPlan := findActionPlan actionPlans a in
  let criticalityWeight := criticalityWeight (Anomaly.criticalityLevel a) in
  let equipmentFactor := equipmentFactor a in
  let urgencyScore := JS.mul criticalityWeight (JS.Num equipmentFactor) in
  let processingTime := durationOrOne actionPlan in
  mkScored a urgencyScore processingTime
           (JS.div urgencyScore (JS.Num processingTime)) actionPlan.

(** ** [Array.prototype.sort] with a comparison callback

    The engine's sort is stable; it is modelled as a stable insertion sort:
    an element stays in front of every later element that the callback does
    not order strictly before it.  Where the callback is no consistent
    comparison (it answers [NaN] for some pairs) the order is left to the
    engine, and this sort is one of the orders it may produce. *)

Section Sort.
Context {A : Type} (compareFn : A -> A -> Q).

Fixpoint sort_insert (x : A) (l : list A) : list A :=
  match l with
  | [] => [x]
  | y :: l' =>
      if Qle_bool (compareFn x y) 0 then x :: y :: l'
      else y :: sort_insert x l'
  end.

Fixpoint array_sort (l : list A) : list A :=
  match l with
  | [] => []
  | x :: l' => sort_insert x (array_sort l')
  end.
End Sort.

(** Descending order of a numeric key. *)
Definition descending {A : Type} (key : A -> Q) (x y : A) : Prop :=
  key y <= key x.

(** [treatedAnomaliesData.sort((a, b) => b.efficiency - a.efficiency)] *)
Definition byEfficiency (a b : ScoredAnomaly) : Q :=
  JS.sort_order (JS.sub (efficiency b) (efficiency a)).

Definition sortedAnomalies (treatedAnomalies : list Anomaly.t)
    (actionPlans : list ActionPlan.t) : list ScoredAnomaly :=
  array_sort byEfficiency (map (scoreAnomaly actionPlans) treatedAnomalies).

(** ** Window utilization analysis ([calculateOptimalScheduling]) *)

(** [treatedAnomalies.filter(a => a.maintenanceWindowId === window.id)] *)
Definition assignedTo (window : MaintenanceWindow.t) (a : Anomaly.t) : bool :=
  bool_decide (Anomaly.maintenanceWindowId a = Some (MaintenanceWindow.id window)).

Definition assignedAnomaliesOf (treatedAnomalies : list Anomaly.t)
    (window : MaintenanceWindow.t) : list Anomaly.t :=
  List.filter (assignedTo window) treatedAnomalies.

(** The [reduce] that adds up [plan?.totalDurationDays || 1]. *)
Definition workloadOf (actionPlans : list ActionPlan.t)
    (assignedAnomalies : list Anomaly.t) : Q :=
  fold_left (fun sum anomaly =>
               sum + durationOrOne (findActionPlan actionPlans anomaly))
            assignedAnomalies 0.

Definition utilizationOf (totalWorkload capacity : Q) : Q :=
  if JS.gt capacity 0 then (totalWorkload / capacity) * 100 else 0.

(** A value of the balance object: a count, or a text once [+ 1] was applied
    to an inherited member, which appends to the member's text. *)
Inductive Tally : Type :=
  | Count (n : nat)
  | Text.

(** [(acc[level] || 0) + 1] *)
Definition nextTally (acc : gmap string Tally) (level : string) : Tally :=
  match acc !! level with
  | Some (Count n) => Count (n + 1)
  | Some Text => Text
  | None => if JS.inherited level then Text else Count 1
  end.

(** The [reduce] that counts the assigned anomalies of each criticality level
    in an object keyed by the level:
    [acc[level] = (acc[level] || 0) + 1]. *)
Definition countLevel (acc : gmap string Tally) (anomaly : Anomaly.t)
    : gmap string Tally :=
  JS.assign acc (Anomaly.criticalityLevel anomaly)
         (nextTally acc (Anomaly.criticalityLevel anomaly)).

Definition criticalityBalanceOf (assignedAnomalies : list Anomaly.t)
    : gmap string Tally :=
  fold_left countLevel assignedAnomalies ∅.

Definition efficiencyScoreOf (utilization : Q) : Q :=
  Qmax 0 (100 - Qabs (85 - utilization)).

Record WindowAnalysis : Type := mkAnalysis {
  window : MaintenanceWindow.t;
  assignedAnomalies : list Anomaly.t;
  utilization : Q;
  capacity : Q;
  totalWorkload : Q;
  balanceScore : Q;
  efficiencyScore : Q;
  overallScore : Q
}.

Definition analyzeWindow (treatedAnomalies : list Anomaly.t)
    (actionPlans : list ActionPlan.t) (w : MaintenanceWindow.t)
    : WindowAnalysis :=
  let assignedAnomalies := assignedAnomaliesOf treatedAnomalies w in
  let totalWorkload := workloadOf actionPlans assignedAnomalies in
  let capacity := MaintenanceWindow.durationDays w in
  let utilization := utilizationOf totalWorkload capacity in
  let criticalityBalance := criticalityBalanceOf assignedAnomalies in
  let balanceScore := JS.of_nat (size (dom criticalityBalance)) * 10 in
  let efficiencyScore := efficiencyScoreOf utilization in
  mkAnalysis w assignedAnomalies utilization capacity totalWorkload
             balanceScore efficiencyScore
             ((balanceScore + efficiencyScore) / 2).

Definition windowAnalysis (treatedAnomalies : list Anomaly.t)
    (maintenanceWindows : list MaintenanceWindow.t)
    (actionPlans : list ActionPlan.t) : list WindowAnalysis :=
  map (analyzeWindow treatedAnomalies actionPlans) maintenanceWindows.

(** ** Recommendations ([generateRecommendations]) *)

Record Recommendation : Type := mkRecommendation {
  rec_type : string;
  title : string;
  description : string;
  action : string
}.

Definition isOverloaded (w : WindowAnalysis) : bool :=
  JS.gt (utilization w) 100.

Definition isUnderutilized (w : WindowAnalysis) : bool :=
  JS.lt (utilization w) 50 && JS.gt (utilization w) 0.

(** [!a.maintenanceWindowId]: the anomaly has no window assignment, its
    window reference being absent or empty. *)
Definition hasNoWindow (a : Anomaly.t) : bool :=
  negb (JS.truthy_string (Anomaly.maintenanceWindowId a)).

Definition isUnscheduledCritical (a : ScoredAnomaly) : bool :=
  hasNoWindow (anomaly a)
  && String.eqb (Anomaly.criticalityLevel (anomaly a)) "critical".

Definition overloadedRecommendation (n : nat) : Recommendation :=
  mkRecommendation "warning" "Fenêtres Surchargées"
    (pretty n +:+ " fenêtre(s) dépassent leur capacité")
    "Redistribuer les anomalies ou étendre la durée".

Definition underutilizedRecommendation (n : nat) : Recommendation :=
  mkRecommendation "info" "Capacité Disponible"
    (pretty n +:+ " fenêtre(s) peuvent accueillir plus d'anomalies")
    "Programmer des anomalies supplémentaires".

Definition unscheduledCriticalRecommendation (n : nat) : Recommendation :=
  mkRecommendation "error" "Anomalies Critiques Non Programmées"
    (pretty n +:+ " anomalie(s) critiques nécessitent une attention immédiate")
    "Créer une fenêtre d'urgence ou réorganiser les priorités".

(** [if (xs.length > 0) recommendations.push(r(xs.length))] *)
Definition pushIfAny {A : Type} (xs : list A) (r : nat -> Recommendation)
    (recommendations : list Recommendation) : list Recommendation :=
  match length xs with
  | O => recommendations
  | S _ => recommendations ++ [r (length xs)]
  end.

Definition generateRecommendations (anomalies : list ScoredAnomaly)
    (windows : list WindowAnalysis) : list Recommendation :=
  let recommendations := [] in
  let overloadedWindows := List.filter isOverloaded windows in
  let recommendations :=
    pushIfAny overloadedWindows overloadedRecommendation recommendations in
  let underutilizedWindows := List.filter isUnderutilized windows in
  let recommendations :=
    pushIfAny underutilizedWindows underutilizedRecommendation recommendations in
  let unscheduledCritical := List.filter isUnscheduledCritical anomalies in
  pushIfAny unscheduledCritical unscheduledCriticalRecommendation recommendations.

Record PlanningAlgorithm : Type := mkPlanning {
  planning_sortedAnomalies : list ScoredAnomaly;
  planning_windowAnalysis : list WindowAnalysis;
  planning_recommendations : list Recommendation
}.

Definition calculateOptimalScheduling (treatedAnomalies : list Anomaly.t)
    (maintenanceWindows : list MaintenanceWindow.t)
    (actionPlans : list ActionPlan.t) : PlanningAlgorithm :=
  let sorted := sortedAnomalies treatedAnomalies actionPlans in
  let analysis := windowAnalysis treatedAnomalies maintenanceWindows actionPlans in
  mkPlanning sorted analysis (generateRecommendations sorted analysis).

(** ** The data context and the auto-scheduling handler ([handleAutoSchedule]) *)

Record DataContext : Type := mkContext {
  anomalies : list Anomaly.t;
  maintenanceWindows : list MaintenanceWindow.t;
  actionPlans : list ActionPlan.t
}.

(** What the planning engine answers: [{ assignments, unassigned }], either
    of which the handler tests for presence. *)
Record Assignment : Type := mkAssignment {
  anomalyId : string;
  windowId : string
}.

Record ScheduleResults : Type := mkResults {
  assignments : option (list Assignment);
  unassigned : option (list string)
}.

(** The calls a handler of the planning page can make on its surroundings:
    the operations of the data context, the toasts and the console. *)
Inductive Effect : Type :=
  | UpdateAnomaly (id : string) (maintenanceWindowId : option string)
  | AddMaintenanceWindow (w : MaintenanceWindow.t)
  | UpdateMaintenanceWindow (id : string)
      (updates : MaintenanceWindow.t -> MaintenanceWindow.t)
  | DeleteMaintenanceWindow (id : string)
  | ToastSuccess (message : string)
  | ToastInfo (message : string)
  | ToastError (message : string)
  | ConsoleLog (message : string)
  | ConsoleError (message : string).

(** Modelled from the spec: the data context ([useData]) is not part of the
    sources at hand.  Its [updateAnomaly] mutates the window reference of the
    anomaly with the given identifier; [addMaintenanceWindow],
    [updateMaintenanceWindow] and [deleteMaintenanceWindow] create, update
    and remove a window of the window store. *)
Definition applyEffect (ctx : DataContext) (e : Effect) : DataContext :=
  match e with
  | UpdateAnomaly id w =>
      mkContext
        (map (fun a => if String.eqb (Anomaly.id a) id
                       then Anomaly.with_window a w else a) (anomalies ctx))
        (maintenanceWindows ctx) (actionPlans ctx)
  | AddMaintenanceWindow w =>
      mkContext (anomalies ctx) (maintenanceWindows ctx ++ [w]) (actionPlans ctx)
  | UpdateMaintenanceWindow id updates =>
      mkContext (anomalies ctx)
        (map (fun w => if String.eqb (MaintenanceWindow.id w) id
                       then updates w else w) (maintenanceWindows ctx))
        (actionPlans ctx)
  | DeleteMaintenanceWindow id =>
      mkContext (anomalies ctx)
        (List.filter (fun w => negb (String.eqb (MaintenanceWindow.id w) id))
                     (maintenanceWindows ctx))
        (actionPlans ctx)
  | ToastSuccess _ | ToastInfo _ | ToastError _
  | ConsoleLog _ | ConsoleError _ => ctx
  end.

Definition applyEffects (ctx : DataContext) (es : list Effect) : DataContext :=
  fold_left applyEffect es ctx.

(** The memoised lists of the page. *)
Definition treatedAnomalies (ctx : DataContext) : list Anomaly.t :=
  List.filter (fun a => String.eqb (Anomaly.status a) "treated") (anomalies ctx).

Definition unscheduledTreatedAnomalies (ctx : DataContext) : list Anomaly.t :=
  List.filter hasNoWindow (treatedAnomalies ctx).

Definition availableWindows (now : Z) (ctx : DataContext)
    : list MaintenanceWindow.t :=
  List.filter (fun w => String.eqb (MaintenanceWindow.status w) "planned"
                        && (now <? MaintenanceWindow.startDate w)%Z)
              (maintenanceWindows ctx).

(** The assignments of an answer that name one of the windows that existed
    before the call, and those that do not. *)
Definition validAssignments (existing : list MaintenanceWindow.t)
    (l : list Assignment) : list Assignment :=
  let existingWindowIds : gset string :=
    list_to_set (map MaintenanceWindow.id existing) in
  List.filter (fun assignment =>
                 bool_decide (windowId assignment ∈ existingWindowIds)) l.

Definition assignmentsToNewWindows (existing : list MaintenanceWindow.t)
    (l : list Assignment) : list Assignment :=
  let existingWindowIds := map MaintenanceWindow.id existing in
  List.filter (fun assignment =>
                 negb (bool_decide (windowId assignment ∈ existingWindowIds))) l.

Definition unassignedCount (existing : list MaintenanceWindow.t)
    (scheduleResults : ScheduleResults) : nat :=
  let unassignedCount :=
    match unassigned scheduleResults with
    | Some u => length u
    | None => O
    end in
  match assignments scheduleResults with
  | Some l =>
      let anomaliesForNewWindows : gset string :=
        list_to_set (map anomalyId (assignmentsToNewWindows existing l)) in
      (unassignedCount + size anomaliesForNewWindows)%nat
  | None => unassignedCount
  end.

Definition applyAssignments (existing : list MaintenanceWindow.t)
    (scheduleResults : ScheduleResults) : list Effect :=
  match assignments scheduleResults with
  | Some ((_ :: _) as l) =>
      let valid := validAssignments existing l in
      let applied :=
        match valid with
        | [] => []
        | _ :: _ =>
            map (fun assignment =>
                   UpdateAnomaly (anomalyId assignment)
                                 (Some (windowId assignment))) valid
            ++ [ToastSuccess
                  (pretty (length valid)
                   +:+ " anomalies automatiquement programmées")]
        end in
      let ignoredAssignments := (length l - length valid)%nat in
      applied ++
      match ignoredAssignments with
      | O => []
      | S _ =>
          [ConsoleLog ("Ignored " +:+ pretty ignoredAssignments
                       +:+ " assignments to automatically created windows")]
      end
  | _ => []
  end.

Definition reportUnassigned (existing : list MaintenanceWindow.t)
    (scheduleResults : ScheduleResults) : list Effect :=
  match unassignedCount existing scheduleResults with
  | O => []
  | (S _) as n =>
      [ConsoleLog
         (pretty n +:+ " anomalies could not be automatically scheduled to existing windows");
       ToastInfo
         (pretty n +:+ " anomalies nécessitent une nouvelle fenêtre de maintenance")]
  end.

Section AutoSchedule.
(** The planning engine ([usePlanningEngineReal]) is a backend service that
    the page only calls; its answer is any value, or a failure. *)
Variable autoScheduleTreatedAnomalies :
  list Anomaly.t -> list MaintenanceWindow.t -> list ActionPlan.t ->
  option ScheduleResults.
Variable now : Z.

Definition handleAutoSchedule (ctx : DataContext) : list Effect :=
  match unscheduledTreatedAnomalies ctx with
  | [] => []
  | _ :: _ =>
      match autoScheduleTreatedAnomalies (unscheduledTreatedAnomalies ctx)
              (availableWindows now ctx) (actionPlans ctx) with
      | Some scheduleResults =>
          applyAssignments (availableWindows now ctx) scheduleResults
          ++ reportUnassigned (availableWindows now ctx) scheduleResults
      | None =>
          [ConsoleError "Auto-scheduling error:";
           ToastError "Échec de la planification automatique"]
      end
  end.

(** The data context once the handler has run. *)
Definition afterAutoSchedule (ctx : DataContext) : DataContext :=
  applyEffects ctx (handleAutoSchedule ctx).
End AutoSchedule.

(** ** The auto-scheduler of the planning engine *)

Module PlanningEngine.

(** Modelled from the spec: the capacity tracking of one call, which section
    4.3 keeps in memory; the planning engine is not part of the sources.  A
    window is tracked with the workload currently assigned to it. *)
Record Tracked : Type := mkTracked {
  tracked : MaintenanceWindow.t;
  currentAssignedWorkload : Q
}.

(** Modelled from the spec: the remaining capacity of a window is
    [durationDays - currentAssignedWorkload]. *)
Definition remainingCapacity (t : Tracked) : Q :=
  MaintenanceWindow.durationDays (tracked t) - currentAssignedWorkload t.

(** Modelled from the spec: the anomaly is placed into the first window, in
    the iteration order of the windows, whose remaining capacity is at least
    its processing time, and the tracking of that window is updated so that
    later anomalies see the reduced capacity. *)
Fixpoint firstFit (processingTime : Q) (windows : list Tracked)
    : option (string * list Tracked) :=
  match windows with
  | [] => None
  | t :: rest =>
      if JS.ge (remainingCapacity t) processingTime
      then Some (MaintenanceWindow.id (tracked t),
                 mkTracked (tracked t)
                           (currentAssignedWorkload t + processingTime)
                 :: rest)
      else match firstFit processingTime rest with
           | Some (windowId, rest') => Some (windowId, t :: rest')
           | None => None
           end
  end.

(** Modelled from the spec: the state of a scheduling pass, the tracking and
    the two lists of the output as far as they are built. *)
Record Pass : Type := mkPass {
  tracking : list Tracked;
  placed : list Assignment;
  reported : list string
}.

(** Modelled from the spec: an anomaly is assigned to the window that fits
    first; if no existing window fits, it is reported in [unassigned] and no
    window is made for it. *)
Definition scheduleOne (pass : Pass) (a : ScoredAnomaly) : Pass :=
  match firstFit (processingTime a) (tracking pass) with
  | Some (windowId, tracking') =>
      mkPass tracking'
             (placed pass ++ [mkAssignment (Anomaly.id (anomaly a)) windowId])
             (reported pass)
  | None =>
      mkPass (tracking pass) (placed pass)
             (reported pass ++ [Anomaly.id (anomaly a)])
  end.

Section Scheduler.
(** The workload that a window carries when the call starts.  The contract
    hands the windows to the scheduler without their anomalies, so the
    starting workload is left open here. *)
Variable assignedWorkload : MaintenanceWindow.t -> Q.

(** Modelled from the spec: the pass over an ordering of the anomalies, from
    the windows as the call receives them. *)
Definition schedulingPass (ordering : list ScoredAnomaly)
    (availableWindows : list MaintenanceWindow.t) : Pass :=
  fold_left scheduleOne ordering
            (mkPass (map (fun w => mkTracked w (assignedWorkload w))
                         availableWindows)
                    [] []).

(** Modelled from the spec: [autoScheduleTreatedAnomalies] of the planning
    engine, which is not part of the sources; the page only awaits its
    answer.  Section 4.3: every candidate is scored and the candidates are
    sorted by descending efficiency with a stable sort (the scoring and the
    sort of the source, [sortedAnomalies]); each anomaly, in that order, is
    placed into the first available window whose remaining capacity is at
    least its processing time; an anomaly that no existing window fits is
    reported in [unassigned].  The output is the full assignment list and
    the unassigned list; the scheduler creates no window and persists
    nothing. *)
Definition autoScheduleTreatedAnomalies
    (unscheduledTreatedAnomalies : list Anomaly.t)
    (availableWindows : list MaintenanceWindow.t)
    (actionPlans : list ActionPlan.t) : ScheduleResults :=
  let pass :=
    schedulingPass (sortedAnomalies unscheduledTreatedAnomalies actionPlans)
                   availableWindows in
  mkResults (Some (placed pass)) (Some (reported pass)).

(** Modelled from the spec: the scheduler never throws, so the call that the
    page awaits returns its answer. *)
Definition answer (unscheduledTreatedAnomalies : list Anomaly.t)
    (availableWindows : list MaintenanceWindow.t)
    (actionPlans : list ActionPlan.t) : option ScheduleResults :=
  Some (autoScheduleTreatedAnomalies unscheduledTreatedAnomalies
          availableWindows actionPlans).
End Scheduler.

End PlanningEngine.

(** ** Concrete inputs used by the examples below *)

(** An anomaly rated 5, 4 and 3 by the model whose user set the first two
    scores to 0. *)
Definition overridden_anomaly : Anomaly.t :=
  Anomaly.mk "a-1" "new" "high" None None
             (Some 5) (Some 4) (Some 3) (Some 0) (Some 0) None.


(** A treated anomaly with the given identifier, level, equipment and window,
    rated [s] on the first sub-score only. *)
Definition sample_anomaly (id level : string) (equipment window : option string)
    (s : option Q) : Anomaly.t :=
  Anomaly.mk id "treated" level equipment window s None None None None None.

(** An anomaly rated [f], [d] and [p] on the three sub-scores, without user
    scores. *)
Definition rated (f d p : option Q) : Anomaly.t :=
  Anomaly.mk "a-0" "new" "low" None None f d p None None None.

(** An anomaly of level normal, without equipment and without window. *)
Definition normal_anomaly : Anomaly.t :=
  sample_anomaly "a-2" "normal" None None (Some 4).

(** The plan a new action-plan form starts from ([totalDurationDays: 0]), and
    a plan of half a day. *)
Definition empty_plan : ActionPlan.t := ActionPlan.mk "a-2" 0.
Definition half_day_plan : ActionPlan.t := ActionPlan.mk "a-2" 0.5.
Definition three_day_plan : ActionPlan.t := ActionPlan.mk "a-2" 3.

(** Windows of 20, 10, 0 and -2 days, and anomalies assigned to them. *)
Definition sample_window (id : string) (days : Q) : MaintenanceWindow.t :=
  MaintenanceWindow.mk id "minor" days 100 "planned" false.

Definition seventeen_day_plan : ActionPlan.t := ActionPlan.mk "a-3" 17.

Definition long_anomaly (window : string) : Anomaly.t :=
  sample_anomaly "a-3" "high" None (Some window) (Some 7).

(** Analyses of windows at 120%, 30% and 85%, and a critical anomaly without
    window. *)
Definition analysis_at (u : Q) : WindowAnalysis :=
  mkAnalysis (sample_window "w" 10) [] u 10 (u / 10) 0 (efficiencyScoreOf u)
             (efficiencyScoreOf u / 2).

Definition critical_unscheduled : ScoredAnomaly :=
  scoreAnomaly [] (sample_anomaly "a-4" "critical" None None (Some 9)).




(** A context with one planned window ahead and two treated anomalies without
    window, and an engine that places the first in a window of its own
    making and gives up on the second. *)
Definition planning_context : DataContext :=
  mkContext
    [sample_anomaly "a-5" "high" None None (Some 7);
     sample_anomaly "a-6" "low" None None (Some 1)]
    [sample_window "w-1" 5]
    [].

Definition inventive_engine (_ : list Anomaly.t)
    (_ : list MaintenanceWindow.t) (_ : list ActionPlan.t)
    : option ScheduleResults :=
  Some (mkResults (Some [mkAssignment "a-5" "w-auto"]) (Some ["a-6"%string])).




(** Three anomalies of two levels in one window, and one elsewhere. *)
Definition mixed_anomalies : list Anomaly.t :=
  [sample_anomaly "m-1" "high" None (Some "w-1"%string) (Some 7);
   sample_anomaly "m-2" "low" None (Some "w-1"%string) (Some 1);
   sample_anomaly "m-3" "high" None (Some "w-1"%string) (Some 8);
   sample_anomaly "m-4" "critical" None (Some "w-2"%string) (Some 9)].

(** * Further parts of the application *)

From Stdlib Require Import Qround.

(** ** The planning page: remaining lists and handlers *)

(** [treatedAnomalies.filter(anomaly => !!anomaly.maintenanceWindowId)] *)
Definition scheduledTreatedAnomalies (ctx : DataContext) : list Anomaly.t :=
  List.filter (fun a => JS.truthy_string (Anomaly.maintenanceWindowId a))
              (treatedAnomalies ctx).

(** [handleDeleteWindow]: the anomalies assigned to the window are unassigned
    one by one, then the window is removed. *)
Definition handleDeleteWindow (windowId : string) (ctx : DataContext)
    : list Effect :=
  let assignedAnomalies :=
    List.filter (fun a => bool_decide
                            (Anomaly.maintenanceWindowId a = Some windowId))
                (anomalies ctx) in
  map (fun anomaly => UpdateAnomaly (Anomaly.id anomaly) None) assignedAnomalies
  ++ [DeleteMaintenanceWindow windowId;
      ToastSuccess "Fenêtre de maintenance supprimée"].

(** ** The summary of treated anomalies ([TreatedAnomaliesStatus]) *)

Module TreatedAnomaliesStatus.

Definition treatedUnassigned (anomalies : list Anomaly.t) : list Anomaly.t :=
  List.filter (fun a => String.eqb (Anomaly.status a) "treated"
                        && negb (JS.truthy_string (Anomaly.maintenanceWindowId a)))
              anomalies.

Definition treatedAssigned (anomalies : list Anomaly.t) : list Anomaly.t :=
  List.filter (fun a => String.eqb (Anomaly.status a) "treated"
                        && JS.truthy_string (Anomaly.maintenanceWindowId a))
              anomalies.

Definition criticalUnassigned (anomalies : list Anomaly.t) : list Anomaly.t :=
  List.filter (fun a => String.eqb (Anomaly.criticalityLevel a) "critical")
              (treatedUnassigned anomalies).

(** The component renders nothing when there is no treated anomaly to show. *)
Definition hidden (anomalies : list Anomaly.t) : bool :=
  (length (treatedUnassigned anomalies) =? 0)%nat
  && (length (treatedAssigned anomalies) =? 0)%nat.

End TreatedAnomaliesStatus.

(** ** The window detail modal ([WindowDetailModal]) *)

Module WindowDetailModal.

(** [actionPlans.filter(ap => assignedAnomalies.some(a => a.id === ap.anomalyId))] *)
Definition relatedActionPlans (assignedAnomalies : list Anomaly.t)
    (actionPlans : list ActionPlan.t) : list ActionPlan.t :=
  List.filter
    (fun ap => existsb (fun anomaly =>
                          String.eqb (Anomaly.id anomaly) (ActionPlan.anomalyId ap))
                       assignedAnomalies)
    actionPlans.

(** Eight hours of work for every planned day. *)
Definition totalEstimatedHours (related : list ActionPlan.t) : Q :=
  fold_left (fun sum plan => sum + ActionPlan.totalDurationDays plan * 8)
            related 0.

Definition utilization (window : MaintenanceWindow.t)
    (anomalies : list Anomaly.t) (actionPlans : list ActionPlan.t) : Q :=
  let assignedAnomalies := assignedAnomaliesOf anomalies window in
  let relatedActionPlans := relatedActionPlans assignedAnomalies actionPlans in
  let totalEstimatedHours := totalEstimatedHours relatedActionPlans in
  if JS.gt (MaintenanceWindow.durationDays window) 0
  then (totalEstimatedHours / (MaintenanceWindow.durationDays window * 24)) * 100
  else 0.

End WindowDetailModal.




(** The window references that a list of effects asks the data context to
    store, in order. *)
Definition anomalyUpdates (es : list Effect) : list (string * option string) :=
  omap (fun e => match e with
                 | UpdateAnomaly id w => Some (id, w)
                 | _ => None
                 end) es.

(** A context with a window in use: two anomalies hold a reference to it. *)
Definition busy_context : DataContext :=
  mkContext
    [sample_anomaly "a-7" "high" None (Some "w-1"%string) (Some 7);
     sample_anomaly "a-8" "critical" None None (Some 9);
     sample_anomaly "a-9" "low" None (Some "w-1"%string) (Some 1);
     sample_anomaly "a-10" "low" None (Some "w-2"%string) (Some 1)]
    [sample_window "w-1" 5; sample_window "w-2" 7]
    [].

(** A context whose only treated anomaly already has its window. *)
Definition settled_context : DataContext :=
  mkContext
    [sample_anomaly "a-7" "high" None (Some "w-1"%string) (Some 7)]
    [sample_window "w-1" 5]
    [].

(** An anomaly whose level is the name of a member that objects inherit. *)
Definition odd_level_anomaly : Anomaly.t :=
  sample_anomaly "a-12" "constructor" None None (Some 1).

(** An anomaly of level critical on a known equipment. *)
Definition critical_equipped : Anomaly.t :=
  sample_anomaly "a-11" "critical" (Some "P-101"%string) None (Some 9).

(** ** Arrays and numbers of JavaScript, continued *)

Module JSArray.

(** [l.slice(start, end)] for integer bounds: a negative bound counts from
    the end, and bounds beyond the array are cut to it. *)
Definition slice {A : Type} (l : list A) (start end_ : Z) : list A :=
  let len := Z.of_nat (length l) in
  let k := if (start <? 0)%Z then Z.max (len + start) 0 else Z.min start len in
  let final := if (end_ <? 0)%Z then Z.max (len + end_) 0 else Z.min end_ len in
  take (Z.to_nat (final - k)) (drop (Z.to_nat k) l).

(** [Array.from({ length: n }, (_, i) => f(i))] *)
Definition from_length {A : Type} (n : Z) (f : Z -> A) : list A :=
  map (fun i => f (Z.of_nat i)) (seq 0 (Z.to_nat n)).

End JSArray.

(** ** The anomaly table ([AnomalyTable]) *)

Module AnomalyTable.

Inductive SortDirection : Type := asc | desc.

(** French labels and badge variants. *)
Definition getCriticalityLabel (level : string) : string :=
  if String.eqb level "critical" then "Critique"
  else if String.eqb level "high" then "Élevée"
  else if String.eqb level "normal" then "Normale"
  else if String.eqb level "low" then "Faible"
  else "Normale".

Definition getBadgeVariant (level : string) : string :=
  if String.eqb level "critical" then "danger"
  else if String.eqb level "high" then "warning"
  else if String.eqb level "normal" then "info"
  else if String.eqb level "low" then "success"
  else "default".

(** The comparison callback of the table, once the two values are read:
    absent values go first in ascending order and last in descending. *)
Definition compareValues (sortDirection : SortDirection)
    (aValue bValue : option Q) : Q :=
  match aValue, bValue with
  | None, None => 0
  | None, Some _ => match sortDirection with asc => -1 | desc => 1 end
  | Some _, None => match sortDirection with asc => 1 | desc => -1 end
  | Some x, Some y =>
      if JS.lt x y then match sortDirection with asc => -1 | desc => 1 end
      else if JS.gt x y then match sortDirection with asc => 1 | desc => -1 end
      else 0
  end.

Definition criticalityOrder : gmap string Q :=
  list_to_map [("critical"%string, 4); ("high"%string, 3);
               ("normal"%string, 2); ("low"%string, 1)].

(** The callback for [sortField === 'criticality']. *)
Definition compareCriticality (sortDirection : SortDirection)
    (a b : Anomaly.t) : Q :=
  let aValue := criticalityOrder !! calculateCriticalityLevel a in
  let bValue := criticalityOrder !! calculateCriticalityLevel b in
  compareValues sortDirection aValue bValue.

(** [[...filteredAnomalies].sort(...)] on the criticality column. *)
Definition sortedByCriticality (sortDirection : SortDirection)
    (filteredAnomalies : list Anomaly.t) : list Anomaly.t :=
  array_sort (compareCriticality sortDirection) filteredAnomalies.

(** Pagination. *)
Definition totalPages (rows : nat) (itemsPerPage : Z) : Z :=
  Qceiling (inject_Z (Z.of_nat rows) / inject_Z itemsPerPage).

Definition startIndex (currentPage itemsPerPage : Z) : Z :=
  ((currentPage - 1) * itemsPerPage)%Z.

Definition endIndex (currentPage itemsPerPage : Z) : Z :=
  (startIndex currentPage itemsPerPage + itemsPerPage)%Z.

Definition paginatedAnomalies {A : Type} (sortedAnomalies : list A)
    (currentPage itemsPerPage : Z) : list A :=
  JSArray.slice sortedAnomalies (startIndex currentPage itemsPerPage)
                (endIndex currentPage itemsPerPage).

(** The page numbers on the buttons between "Précédent" and "Suivant". *)
Definition pageNumber (totalPages currentPage i : Z) : Z :=
  if (totalPages <=? 5)%Z then (i + 1)%Z
  else if (currentPage <=? 3)%Z then (i + 1)%Z
  else if (totalPages - 2 <=? currentPage)%Z then (totalPages - 4 + i)%Z
  else (currentPage - 2 + i)%Z.

Definition pageButtons (totalPages currentPage : Z) : list Z :=
  JSArray.from_length (Z.min 5 totalPages) (pageNumber totalPages currentPage).

Definition previousPage (currentPage : Z) : Z := Z.max 1 (currentPage - 1).

Definition nextPage (totalPages currentPage : Z) : Z :=
  Z.min totalPages (currentPage + 1).

(** The sorting state of the table and a click on a column header. *)
Record SortState : Type := mkSortState {
  sortField : string;
  sortDirection : SortDirection;
  currentPage : Z
}.

Definition handleSort (field : string) (st : SortState) : SortState :=
  if String.eqb (sortField st) field
  then mkSortState (sortField st)
         (match sortDirection st with asc => desc | desc => asc end) 1
  else mkSortState field
         (if String.eqb field "criticality" then desc else asc) 1.

End AnomalyTable.

(** ** The anomaly detail page ([AnomalyDetail]) *)

Module AnomalyDetail.

Record CriticalityInfo : Type := mkInfo {
  value : string;
  label : string;
  color : string
}.

Definition criticalityLevels : list CriticalityInfo :=
  [mkInfo "low" "Faible" "bg-green-500";
   mkInfo "normal" "Normale" "bg-yellow-500";
   mkInfo "high" "Élevée" "bg-orange-500";
   mkInfo "critical" "Critique" "bg-red-500"].

(** [criticalityLevels.find(level => level.value === currentCriticality)] *)
Definition criticalityInfo (anomaly : Anomaly.t) : option CriticalityInfo :=
  List.find (fun level => String.eqb (value level)
                                     (calculateCriticalityLevel anomaly))
            criticalityLevels.

End AnomalyDetail.

(** The rank of an anomaly in the criticality column: 4 for critical down to
    1 for low. *)
Definition criticalityRank (a : Anomaly.t) : Q :=
  default 0 (AnomalyTable.criticalityOrder !! calculateCriticalityLevel a).

(** ** The action plan modal ([ActionPlanModal]) *)

Module ActionItem.
Record t : Type := mk {
  id : string;
  action : string;
  responsable : string;
  pdrsDisponible : string;
  ressourcesInternes : string;
  ressourcesExternes : string;
  statut : string;
  dureeHeures : Q;
  dureeJours : Q;
  dateDebut : option Z;
  dateFin : option Z
}.
End ActionItem.

Module ActionPlanModal.

(** [Partial<ActionItem>]: the form of the action being typed. *)
Record NewAction : Type := mkNewAction {
  new_action : option string;
  new_responsable : option string;
  new_pdrsDisponible : option string;
  new_ressourcesInternes : option string;
  new_ressourcesExternes : option string;
  new_statut : option string;
  new_dureeHeures : option Q;
  new_dureeJours : option Q
}.

Record PlanDraft : Type := mkDraft {
  plan_id : string;
  plan_anomalyId : string;
  actions : list ActionItem.t;
  totalDurationHours : Q;
  totalDurationDays : Q;
  completionPercentage : Q;
  updatedAt : Z
}.

Record State : Type := mkState {
  actionPlan : PlanDraft;
  locallyAddedActions : list string;
  locallyRemovedActions : list string;
  newAction : NewAction
}.

(** [s || d] for an optional string. *)
Definition or_string (s : option string) (d : string) : string :=
  match s with
  | Some v => if String.eqb v "" then d else v
  | None => d
  end.

Definition with_actions (p : PlanDraft) (l : list ActionItem.t) : PlanDraft :=
  mkDraft (plan_id p) (plan_anomalyId p) l (totalDurationHours p)
          (totalDurationDays p) (completionPercentage p) (updatedAt p).

(** The form once an action is added: [pdrsDisponible] is not part of it. *)
Definition emptyForm : NewAction :=
  mkNewAction (Some ""%string) (Some ""%string) None (Some ""%string)
              (Some ""%string) (Some "planifie"%string) (Some 0) (Some 0).

(** [calculateTotalDuration], run at time [now]. *)
Definition calculateTotalDuration (now : Z) (st : State) : State :=
  let totalHours :=
    fold_left (fun sum action => sum + ActionItem.dureeHeures action)
              (actions (actionPlan st)) 0 in
  let totalDays :=
    fold_left (fun sum action => sum + ActionItem.dureeJours action)
              (actions (actionPlan st)) 0 in
  mkState
    (mkDraft (plan_id (actionPlan st)) (plan_anomalyId (actionPlan st))
             (actions (actionPlan st)) totalHours totalDays
             (completionPercentage (actionPlan st)) now)
    (locallyAddedActions st) (locallyRemovedActions st) (newAction st).

(** [addAction], with [Date.now()] equal to [now]. *)
Definition addAction (now : Z) (st : State) : State :=
  if negb (JS.truthy_string (new_action (newAction st)))
     || negb (JS.truthy_string (new_responsable (newAction st)))
  then st
  else
    let actionId := ("action-" +:+ pretty now)%string in
    let action :=
      ActionItem.mk actionId
        (or_string (new_action (newAction st)) "")
        (or_string (new_responsable (newAction st)) "")
        (or_string (new_pdrsDisponible (newAction st)) "OUI")
        (or_string (new_ressourcesInternes (newAction st)) "")
        (or_string (new_ressourcesExternes (newAction st)) "")
        (or_string (new_statut (newAction st)) "planifie")
        (JS.or_number (new_dureeHeures (newAction st)) 0)
        (JS.or_number (new_dureeJours (newAction st)) 0)
        None None in
    mkState
      (with_actions (actionPlan st) (actions (actionPlan st) ++ [action]))
      (locallyAddedActions st ++ [actionId])
      (locallyRemovedActions st)
      emptyForm.

Definition withoutAction (actionId : string) (l : list ActionItem.t)
    : list ActionItem.t :=
  List.filter (fun a => negb (String.eqb (ActionItem.id a) actionId)) l.

(** [removeAction] *)
Definition removeAction (actionId : string) (st : State) : State :=
  if bool_decide (actionId ∈ locallyAddedActions st)
  then
    mkState
      (with_actions (actionPlan st)
         (withoutAction actionId (actions (actionPlan st))))
      (List.filter (fun id => negb (String.eqb id actionId))
                   (locallyAddedActions st))
      (locallyRemovedActions st)
      (newAction st)
  else
    mkState
      (with_actions (actionPlan st)
         (withoutAction actionId (actions (actionPlan st))))
      (locallyAddedActions st)
      (locallyRemovedActions st ++ [actionId])
      (newAction st).

Definition isNewPlan (p : PlanDraft) : bool := String.prefix "plan-" (plan_id p).

(** [handleSave], step 1 for a new plan: the actions created with it. *)
Definition actionsCreatedOnSave (st : State) : list ActionItem.t :=
  if isNewPlan (actionPlan st) then actions (actionPlan st) else [].

(** [handleSave], step 2: the actions sent to [addActionItem]. *)
Definition actionsAddedOnSave (st : State) : list ActionItem.t :=
  if isNewPlan (actionPlan st) then []
  else List.filter
         (fun action =>
            String.prefix "action-" (ActionItem.id action)
            && bool_decide (ActionItem.id action ∈ locallyAddedActions st))
         (actions (actionPlan st)).

(** [handleSave], step 3: the identifiers sent to [deleteActionItem]. *)
Definition actionsDeletedOnSave (st : State) : list string :=
  List.filter (fun actionId => negb (String.prefix "action-" actionId))
              (locallyRemovedActions st).

End ActionPlanModal.

(** The plan as the planning page reads it. *)
Definition planOfDraft (p : ActionPlanModal.PlanDraft) : ActionPlan.t :=
  ActionPlan.mk (ActionPlanModal.plan_anomalyId p)
                (ActionPlanModal.totalDurationDays p).

(** A modal on a stored plan with one stored action, and a filled form. *)
Definition stored_action : ActionItem.t :=
  ActionItem.mk "7f3a" "Remplacer le joint" "MC" "OUI" "" "" "planifie" 4 2
                None None.

Definition filled_form : ActionPlanModal.NewAction :=
  ActionPlanModal.mkNewAction (Some "Contrôler la pompe"%string)
    (Some "OP"%string) (Some "OUI"%string) None None None None
    (Some 3).

Definition open_modal : ActionPlanModal.State :=
  ActionPlanModal.mkState
    (ActionPlanModal.mkDraft "b21c" "a-2" [stored_action] 4 2 0 0)
    [] [] filled_form.

(** ** The dashboard ([Dashboard], [calculateKPIs]) *)

Module Dashboard.

(** An anomaly as the anomaly service returns it, with its two dates in
    milliseconds ([None] when the field is absent). *)
Record AnomalyRow : Type := mkRow {
  core : Anomaly.t;
  createdAt : option Z;
  updatedAt : option Z
}.

(** What [getActionPlan] answers for an anomaly: no plan, or a plan whose
    actions may be missing. *)
Record FetchedPlan : Type := mkFetchedPlan {
  plan_actions : option (list ActionItem.t)
}.

Record Fetched : Type := mkFetched {
  fetched_anomalies : list AnomalyRow;
  fetched_plans : list (option FetchedPlan);
  fetched_windows : list MaintenanceWindow.t
}.

Record MonthlyTrend : Type := mkTrend {
  current : nat;
  previous : nat;
  change : Q
}.

Record DashboardKPIs : Type := mkKPIs {
  totalAnomalies : nat;
  criticalAnomalies : nat;
  openAnomalies : nat;
  treatmentRate : Q;
  totalActionItems : nat;
  completedActionItems : nat;
  inProgressActionItems : nat;
  plannedActionItems : nat;
  overDueActionItems : nat;
  actionItemsCompletionRate : Q;
  averageResolutionTime : Q;
  operationalEfficiency : Q;
  newAnomaliesThisWeek : nat;
  resolvedAnomaliesThisWeek : nat;
  monthlyTrend : MonthlyTrend
}.

(** The record returned when a service fails. *)
Definition zeroKPIs : DashboardKPIs :=
  mkKPIs 0 0 0 0 0 0 0 0 0 0 0 0 0 0 (mkTrend 0 0 0).

(** The counters of the loop over the action items. *)
Record Counters : Type := mkCounters {
  total : nat;
  completed : nat;
  inProgress : nat;
  planned : nat;
  overDue : nat
}.

Definition countItem (now : Z) (c : Counters) (item : ActionItem.t) : Counters :=
  let c := mkCounters (S (total c)) (completed c) (inProgress c) (planned c)
                      (overDue c) in
  if String.eqb (ActionItem.statut item) "termine" then
    mkCounters (total c) (S (completed c)) (inProgress c) (planned c) (overDue c)
  else if String.eqb (ActionItem.statut item) "en_cours" then
    mkCounters (total c) (completed c) (S (inProgress c)) (planned c) (overDue c)
  else if String.eqb (ActionItem.statut item) "planifie" then
    mkCounters (total c) (completed c) (inProgress c) (S (planned c)) (overDue c)
  else if String.eqb (ActionItem.statut item) "reporte" then
    match ActionItem.dateFin item with
    | Some dateFin =>
        if (dateFin <? now)%Z then
          mkCounters (total c) (completed c) (inProgress c) (planned c)
                     (S (overDue c))
        else c
    | None => c
    end
  else c.

Definition countPlan (now : Z) (c : Counters) (plan : option FetchedPlan)
    : Counters :=
  match plan with
  | Some p =>
      match plan_actions p with
      | Some items => fold_left (countItem now) items c
      | None => c
      end
  | None => c
  end.

Definition countActionItems (now : Z) (plans : list (option FetchedPlan))
    : Counters :=
  fold_left (countPlan now) plans (mkCounters 0 0 0 0 0).

(** [count / total * 100], or 0 when there is nothing to divide by. *)
Definition percentage (count totalCount : nat) : Q :=
  if (0 <? totalCount)%nat
  then (JS.of_nat count / JS.of_nat totalCount) * 100
  else 0.

Definition isClosed (a : AnomalyRow) : bool :=
  String.eqb (Anomaly.status (core a)) "closed".

(** [new Date(d) >= since], false for an absent date. *)
Definition notBefore (since : Z) (d : option Z) : bool :=
  match d with
  | Some t => (since <=? t)%Z
  | None => false
  end.

Definition day : Z := (1000 * 60 * 60 * 24)%Z.

Definition resolvedWithTimes (anomalies : list AnomalyRow) : list AnomalyRow :=
  List.filter (fun a => isClosed a
                        && match createdAt a, updatedAt a with
                           | Some _, Some _ => true
                           | _, _ => false
                           end)
              anomalies.

(** [resolved.getTime() - created.getTime()] *)
Definition resolutionTime (a : AnomalyRow) : Z :=
  match createdAt a, updatedAt a with
  | Some created, Some resolved => (resolved - created)%Z
  | _, _ => 0%Z
  end.

Definition computeKPIs (now : Z) (f : Fetched) : DashboardKPIs :=
  let anomalies := fetched_anomalies f in
  let oneWeekAgo := (now - 7 * 24 * 60 * 60 * 1000)%Z in
  let oneMonthAgo := (now - 30 * 24 * 60 * 60 * 1000)%Z in
  let totalAnomalies := length anomalies in
  let openAnomalies :=
    length (List.filter (fun a => negb (isClosed a)) anomalies) in
  let criticalAnomalies :=
    length (List.filter
              (fun a => String.eqb (calculateCriticalityLevel (core a))
                                   "critical") anomalies) in
  let resolvedAnomalies := length (List.filter isClosed anomalies) in
  let treatmentRate := percentage resolvedAnomalies totalAnomalies in
  let counters := countActionItems now (fetched_plans f) in
  let actionItemsCompletionRate :=
    percentage (completed counters) (total counters) in
  let newAnomaliesThisWeek :=
    length (List.filter (fun a => notBefore oneWeekAgo (createdAt a)) anomalies) in
  let resolvedAnomaliesThisWeek :=
    length (List.filter (fun a => isClosed a
                                  && notBefore oneWeekAgo (updatedAt a))
                        anomalies) in
  let currentMonthAnomalies :=
    length (List.filter (fun a => notBefore oneMonthAgo (createdAt a)) anomalies) in
  let previousMonthAnomalies :=
    length (List.filter
              (fun a =>
                 let twoMonthsAgo := (now - 60 * 24 * 60 * 60 * 1000)%Z in
                 match createdAt a with
                 | Some createdDate =>
                     (twoMonthsAgo <=? createdDate)%Z
                     && (createdDate <? oneMonthAgo)%Z
                 | None => false
                 end) anomalies) in
  let monthlyChange :=
    if (0 <? previousMonthAnomalies)%nat
    then ((JS.of_nat currentMonthAnomalies - JS.of_nat previousMonthAnomalies)
          / JS.of_nat previousMonthAnomalies) * 100
    else 0 in
  let resolvedWithTimes := resolvedWithTimes anomalies in
  let averageResolutionTime :=
    if (0 <? length resolvedWithTimes)%nat
    then inject_Z (fold_left (fun sum a => (sum + resolutionTime a)%Z)
                             resolvedWithTimes 0%Z)
         / JS.of_nat (length resolvedWithTimes) / inject_Z day
    else 0 in
  let scheduledAnomalyCount :=
    length (List.filter
              (fun a => JS.truthy_string (Anomaly.maintenanceWindowId (core a)))
              anomalies) in
  let schedulingEfficiency := percentage scheduledAnomalyCount totalAnomalies in
  let actionPlanQuality := actionItemsCompletionRate in
  let targetResponseDays := 7 in
  let responseTimeEfficiency :=
    percentage
      (length (List.filter
                 (fun a => Qle_bool (inject_Z (resolutionTime a) / inject_Z day)
                                    targetResponseDays)
                 resolvedWithTimes))
      (length resolvedWithTimes) in
  let operationalEfficiency :=
    schedulingEfficiency * 0.4 + actionPlanQuality * 0.4
    + responseTimeEfficiency * 0.2 in
  mkKPIs totalAnomalies criticalAnomalies openAnomalies treatmentRate
         (total counters) (completed counters) (inProgress counters)
         (planned counters) (overDue counters) actionItemsCompletionRate
         averageResolutionTime operationalEfficiency newAnomaliesThisWeek
         resolvedAnomaliesThisWeek
         (mkTrend currentMonthAnomalies previousMonthAnomalies monthlyChange).

(** [calculateKPIs]: the indicators, or zeros when a service fails. *)
Definition calculateKPIs (now : Z) (answer : option Fetched) : DashboardKPIs :=
  match answer with
  | Some f => computeKPIs now f
  | None => zeroKPIs
  end.

End Dashboard.

(** The action items of the plans that were found. *)
Definition fetchedItems (plans : list (option Dashboard.FetchedPlan))
    : list ActionItem.t :=
  concat (map (fun plan =>
                 match plan with
                 | Some p => default [] (Dashboard.plan_actions p)
                 | None => []
                 end) plans).

(** ** Creating a window from the modal ([handleCreateWindowFromModal]) *)

Record WindowCreationData : Type := mkCreation {
  creation_type : string;
  creation_durationDays : Q;
  creation_startDate : Z;
  autoAssignAnomalies : list string
}.

(** The window that the page adds to its own state before it asks the
    engine, with [Date.now()] equal to [now]. *)
Definition temporaryWindow (now : Z) (windowData : WindowCreationData)
    : MaintenanceWindow.t :=
  let backendType :=
    if String.eqb (creation_type windowData) "arret" then "minor"%string
    else creation_type windowData in
  MaintenanceWindow.mk ("temp_" +:+ pretty now) backendType
    (creation_durationDays windowData) (creation_startDate windowData)
    "planned" false.

Section CreateWindow.
(** The engine's [createOptimalWindow] is a backend service: it answers with
    a window, or fails. *)
Variable createOptimalWindow :
  list string -> list ActionPlan.t -> option MaintenanceWindow.t.
Variable now : Z.

Definition handleCreateWindowFromModal (windowData : WindowCreationData)
    (ctx : DataContext) : list Effect :=
  AddMaintenanceWindow (temporaryWindow now windowData) ::
  match createOptimalWindow (autoAssignAnomalies windowData)
                            (actionPlans ctx) with
  | Some serverWindow =>
      map (fun anomalyId =>
             UpdateAnomaly anomalyId (Some (MaintenanceWindow.id serverWindow)))
          (autoAssignAnomalies windowData)
      ++ [ConsoleLog "Scheduled times:";
          ToastSuccess
            ("Fenêtre de maintenance " +:+ creation_type windowData
             +:+ " créée avec "
             +:+ pretty (length (autoAssignAnomalies windowData))
             +:+ " anomalie(s)")]
  | None =>
      [ConsoleError "Error creating window:";
       ToastError "Erreur lors de la création de la fenêtre"]
  end.
End CreateWindow.

(** ** The export of the anomalies page ([handleExport]) *)

Module Anomalies.

(** The double quote character. *)
Definition quote : Ascii.ascii :=
  Ascii.Ascii false true false false false true false false.

(** The [replace] of the export: every double quote is written twice. *)
Fixpoint doubleQuotes (s : string) : string :=
  match s with
  | EmptyString => EmptyString
  | String c s' =>
      if Ascii.eqb c quote then String quote (String quote (doubleQuotes s'))
      else String c (doubleQuotes s')
  end.

(** A quoted column of the export: the text, or nothing when it is absent,
    between double quotes. *)
Definition quotedColumn (text : option string) : string :=
  String quote
    (doubleQuotes (ActionPlanModal.or_string text "")
     +:+ String quote EmptyString).

End Anomalies.

(** A request for a two-day stop ("arret") that takes two anomalies along. *)
Definition stop_request : WindowCreationData :=
  mkCreation "arret" 2 500 ["a-5"; "a-6"]%string.

Definition obliging_engine (_ : list string) (_ : list ActionPlan.t)
    : option MaintenanceWindow.t :=
  Some (sample_window "w-srv" 2).

(** * Properties *)

(** ** Comparisons of the sources, as propositions *)

Lemma ge_true (x y : Q) : JS.ge x y = true <-> y <= x.
Proof. unfold JS.ge. apply Qle_bool_iff. Qed.

Lemma ge_false (x y : Q) : JS.ge x y = false <-> x < y.
Proof.
  unfold JS.ge. split; intros H.
  - apply Qnot_le_lt. intros Hle. apply Qle_bool_iff in Hle. congruence.
  - destruct (Qle_bool y x) eqn:E; [|reflexivity].
    apply Qle_bool_iff in E. exfalso. apply (Qlt_not_le _ _ H E).
Qed.

Lemma gt_true (x y : Q) : JS.gt x y = true <-> y < x.
Proof.
  unfold JS.gt. rewrite negb_true_iff. apply (ge_false y x).
Qed.

Lemma gt_false (x y : Q) : JS.gt x y = false <-> x <= y.
Proof.
  unfold JS.gt. rewrite negb_false_iff. apply Qle_bool_iff.
Qed.

Lemma lt_true (x y : Q) : JS.lt x y = true <-> x < y.
Proof. unfold JS.lt. rewrite negb_true_iff. apply (ge_false x y). Qed.

Lemma truthy_number_true (x : Q) : JS.truthy_number x = true <-> ~ x == 0.
Proof.
  unfold JS.truthy_number. rewrite negb_true_iff. split; intros H.
  - intros E. apply Qeq_bool_iff in E. congruence.
  - destruct (Qeq_bool x 0) eqn:E; [|reflexivity].
    apply Qeq_bool_iff in E. contradiction.
Qed.

Lemma truthy_number_false (x : Q) : JS.truthy_number x = false <-> x == 0.
Proof.
  unfold JS.truthy_number. rewrite negb_false_iff. apply Qeq_bool_iff.
Qed.

(** Decide every [>=] test of the goal, keeping the outcome as an
    inequality. *)
Ltac case_thresholds :=
  repeat match goal with
         | |- context [JS.ge ?x ?y] =>
             let E := fresh "E" in
             destruct (JS.ge x y) eqn:E;
             [apply ge_true in E | apply ge_false in E]
         end.

(** ** Criticality level *)

(** C10: each sub-score of the criticality computation is the user-provided
    score whenever that one is present, a user score of 0 included (it then
    overrides a positive base score); otherwise it is the base score, and it
    is 0 only when both are absent. *)
Theorem user_score_overrides_base (a : Anomaly.t) :
  (forall u, Anomaly.userFiabiliteIntegriteScore a = Some u ->
             fiabiliteIntegriteScore a = u) /\
  (forall u, Anomaly.userDisponibiliteScore a = Some u ->
             disponibiliteScore a = u) /\
  (forall u, Anomaly.userProcessSafetyScore a = Some u ->
             processSafetyScore a = u) /\
  (forall b, Anomaly.userFiabiliteIntegriteScore a = None ->
             Anomaly.fiabiliteIntegriteScore a = Some b ->
             fiabiliteIntegriteScore a = b) /\
  (forall b, Anomaly.userDisponibiliteScore a = None ->
             Anomaly.disponibiliteScore a = Some b ->
             disponibiliteScore a = b) /\
  (forall b, Anomaly.userProcessSafetyScore a = None ->
             Anomaly.processSafetyScore a = Some b ->
             processSafetyScore a = b) /\
  (Anomaly.userFiabiliteIntegriteScore a = None ->
   Anomaly.fiabiliteIntegriteScore a = None -> fiabiliteIntegriteScore a = 0) /\
  (Anomaly.userDisponibiliteScore a = None ->
   Anomaly.disponibiliteScore a = None -> disponibiliteScore a = 0) /\
  (Anomaly.userProcessSafetyScore a = None ->
   Anomaly.processSafetyScore a = None -> processSafetyScore a = 0).
Proof.
  unfold fiabiliteIntegriteScore, disponibiliteScore, processSafetyScore.
  repeat split; intros; repeat match goal with H : _ = _ |- _ => rewrite H end;
    reflexivity.
Qed.

Lemma user_score_overrides_base_witness :
  fiabiliteIntegriteScore overridden_anomaly = 0 /\
  disponibiliteScore overridden_anomaly = 0 /\
  processSafetyScore overridden_anomaly = 3 /\
  calculateCriticalityLevel overridden_anomaly = "normal"%string.
Proof.
  destruct (user_score_overrides_base overridden_anomaly)
    as (H1 & H2 & _ & _ & _ & H6 & _).
  split; [apply H1; reflexivity|].
  split; [apply H2; reflexivity|].
  split; [apply H6; reflexivity|].
  reflexivity.
Defined.

(** C3: the level is decided by the sum of the three sub-scores, each of them
    read from the anomaly (the user's score, else the base score) and 0 when
    absent, with the boundaries exactly at 9, 7 and 3. *)
Theorem calculateCriticalityLevel_boundaries (a : Anomaly.t) :
  let subScore (user base : option Q) : Q :=
    match user, base with
    | Some u, _ => u
    | None, Some b => b
    | None, None => 0
    end in
  let total :=
    subScore (Anomaly.userFiabiliteIntegriteScore a)
             (Anomaly.fiabiliteIntegriteScore a)
    + subScore (Anomaly.userDisponibiliteScore a) (Anomaly.disponibiliteScore a)
    + subScore (Anomaly.userProcessSafetyScore a) (Anomaly.processSafetyScore a)
  in
  totalScore a = total /\
  (Anomaly.userFiabiliteIntegriteScore a = None ->
   Anomaly.fiabiliteIntegriteScore a = None ->
   Anomaly.userDisponibiliteScore a = None ->
   Anomaly.disponibiliteScore a = None ->
   Anomaly.userProcessSafetyScore a = None ->
   Anomaly.processSafetyScore a = None -> total = 0) /\
  (calculateCriticalityLevel a = "critical"%string <-> 9 <= total) /\
  (calculateCriticalityLevel a = "high"%string <-> 7 <= total /\ total < 9) /\
  (calculateCriticalityLevel a = "normal"%string <-> 3 <= total /\ total < 7) /\
  (calculateCriticalityLevel a = "low"%string <-> total < 3).
Proof.
  intros subScore total.
  assert (Ht : totalScore a = total).
  { subst total subScore.
    unfold totalScore, fiabiliteIntegriteScore, disponibiliteScore,
      processSafetyScore.
    destruct (Anomaly.userFiabiliteIntegriteScore a),
      (Anomaly.fiabiliteIntegriteScore a),
      (Anomaly.userDisponibiliteScore a), (Anomaly.disponibiliteScore a),
      (Anomaly.userProcessSafetyScore a), (Anomaly.processSafetyScore a);
      reflexivity. }
  split; [exact Ht|].
  split.
  { intros U1 B1 U2 B2 U3 B3. subst total subScore.
    rewrite U1, B1, U2, B2, U3, B3. reflexivity. }
  unfold calculateCriticalityLevel. rewrite Ht. clear Ht.
  repeat match goal with
         | |- _ /\ _ => split
         | |- _ <-> _ => split
         end;
    case_thresholds; intros H;
    solve [reflexivity | discriminate | lra | split; lra
          | destruct H; exfalso; lra | exfalso; lra].
Qed.

Lemma calculateCriticalityLevel_boundaries_witness :
  calculateCriticalityLevel (rated (Some 4) (Some 3) (Some 2))
    = "critical"%string /\
  calculateCriticalityLevel (rated (Some 3) (Some 3) (Some 2))
    = "high"%string /\
  calculateCriticalityLevel (rated (Some 3) (Some 2) (Some 2))
    = "high"%string /\
  calculateCriticalityLevel (rated (Some 2) (Some 2) (Some 2))
    = "normal"%string /\
  calculateCriticalityLevel (rated (Some 1) (Some 1) (Some 1))
    = "normal"%string /\
  calculateCriticalityLevel (rated (Some 1) None (Some 1))
    = "low"%string /\
  calculateCriticalityLevel (rated None None None) = "low"%string.
Proof.
  split.
  { apply (calculateCriticalityLevel_boundaries
             (rated (Some 4) (Some 3) (Some 2))).
    vm_compute. discriminate. }
  split.
  { apply (calculateCriticalityLevel_boundaries
             (rated (Some 3) (Some 3) (Some 2))).
    split; vm_compute; [discriminate | reflexivity]. }
  split.
  { apply (calculateCriticalityLevel_boundaries
             (rated (Some 3) (Some 2) (Some 2))).
    split; vm_compute; [discriminate | reflexivity]. }
  split.
  { apply (calculateCriticalityLevel_boundaries
             (rated (Some 2) (Some 2) (Some 2))).
    split; vm_compute; [discriminate | reflexivity]. }
  split.
  { apply (calculateCriticalityLevel_boundaries
             (rated (Some 1) (Some 1) (Some 1))).
    split; vm_compute; [discriminate | reflexivity]. }
  split.
  { apply (calculateCriticalityLevel_boundaries
             (rated (Some 1) None (Some 1))).
    vm_compute. reflexivity. }
  apply (calculateCriticalityLevel_boundaries (rated None None None)).
  vm_compute. reflexivity.
Defined.

(** ** Scoring *)

Lemma inherited_true (k : string) : JS.inherited k = true <-> In k JS.objectPrototype.
Proof.
  unfold JS.inherited. rewrite bool_decide_eq_true. apply list_elem_of_In.
Qed.

Lemma criticalityWeight_table :
  criticalityWeight "critical" = JS.Num 10 /\
  criticalityWeight "high" = JS.Num 7 /\
  criticalityWeight "medium" = JS.Num 4 /\
  criticalityWeight "low" = JS.Num 1.
Proof. repeat split; vm_compute; reflexivity. Qed.

Lemma criticalityWeight_unknown (level : string) :
  criticalityWeights !! level = None -> JS.inherited level = false ->
  criticalityWeight level = JS.Num 1.
Proof. unfold criticalityWeight. intros -> ->. reflexivity. Qed.

Lemma criticalityWeight_inherited (level : string) :
  JS.inherited level = true -> criticalityWeight level = JS.NaN.
Proof.
  intros H. apply inherited_true in H. simpl in H.
  repeat (destruct H as [<-|H]; [vm_compute; reflexivity|]). destruct H.
Qed.

Lemma urgencyScore_formula (plans : list ActionPlan.t) (a : Anomaly.t) :
  urgencyScore (scoreAnomaly plans a)
  = JS.mul (criticalityWeight (Anomaly.criticalityLevel a))
           (JS.Num (equipmentFactor a)).
Proof. reflexivity. Qed.

(** C2: the weight table has no entry for the level normal, so an anomaly of
    that level is weighted by the default 1 and not by 4. *)
Theorem normal_level_weighs_one :
  criticalityWeights !! "normal"%string = None /\
  criticalityWeight "normal" = JS.Num 1 /\
  calculateCriticalityLevel normal_anomaly = "normal"%string /\
  JS.equals (urgencyScore (scoreAnomaly [] normal_anomaly)) 1 /\
  ~ JS.equals (urgencyScore (scoreAnomaly [] normal_anomaly)) (4 * 1.0).
Proof.
  split; [vm_compute; reflexivity|].
  split; [vm_compute; reflexivity|].
  split; [vm_compute; reflexivity|].
  split; vm_compute; [reflexivity | discriminate].
Qed.
Lemma durationOrOne_nonzero (plan : option ActionPlan.t) :
  ~ durationOrOne plan == 0.
Proof.
  unfold durationOrOne, JS.or_number.
  destruct plan as [p|]; simpl; [|discriminate].
  destruct (JS.truthy_number (ActionPlan.totalDurationDays p)) eqn:E.
  - apply truthy_number_true in E. exact E.
  - discriminate.
Qed.

Lemma durationOrOne_spec (plan : option ActionPlan.t) :
  durationOrOne plan =
    match plan with
    | Some p => if Qeq_bool (ActionPlan.totalDurationDays p) 0 then 1
                else ActionPlan.totalDurationDays p
    | None => 1
    end.
Proof.
  unfold durationOrOne, JS.or_number, JS.truthy_number.
  destruct plan as [p|]; simpl; [|reflexivity].
  destruct (Qeq_bool (ActionPlan.totalDurationDays p) 0); reflexivity.
Qed.

Lemma findActionPlan_In (plans : list ActionPlan.t) (a : Anomaly.t)
    (p : ActionPlan.t) :
  findActionPlan plans a = Some p -> In p plans.
Proof. unfold findActionPlan. intros H. apply find_some in H. tauto. Qed.

(** C4, as the code has it: the processing time is the plan's duration when
    there is a plan whose duration is not zero, and 1 otherwise; it is never
    zero, and at least 1 when no plan lasts a fraction of a day. *)
Theorem processingTime_defaults (plans : list ActionPlan.t) (a : Anomaly.t) :
  efficiency (scoreAnomaly plans a)
  = JS.div (urgencyScore (scoreAnomaly plans a))
           (JS.Num (processingTime (scoreAnomaly plans a))) /\
  (forall u, urgencyScore (scoreAnomaly plans a) = JS.Num u ->
             efficiency (scoreAnomaly plans a)
             = JS.Num (u / processingTime (scoreAnomaly plans a))) /\
  (forall p, findActionPlan plans a = Some p ->
             ~ ActionPlan.totalDurationDays p == 0 ->
             processingTime (scoreAnomaly plans a) = ActionPlan.totalDurationDays p) /\
  (forall p, findActionPlan plans a = Some p ->
             ActionPlan.totalDurationDays p == 0 ->
             processingTime (scoreAnomaly plans a) = 1) /\
  (findActionPlan plans a = None -> processingTime (scoreAnomaly plans a) = 1) /\
  ~ processingTime (scoreAnomaly plans a) == 0 /\
  ((forall p, In p plans -> ActionPlan.totalDurationDays p == 0 \/
                            1 <= ActionPlan.totalDurationDays p) ->
   1 <= processingTime (scoreAnomaly plans a)).
Proof.
  split; [reflexivity|].
  split.
  { intros u Hu.
    change (efficiency (scoreAnomaly plans a))
      with (JS.div (urgencyScore (scoreAnomaly plans a))
                   (JS.Num (processingTime (scoreAnomaly plans a)))).
    rewrite Hu. reflexivity. }
  cbn [processingTime scoreAnomaly]. rewrite durationOrOne_spec.
  split.
  { intros p -> Hnz. destruct (Qeq_bool _ 0) eqn:E; [|reflexivity].
    apply Qeq_bool_iff in E. contradiction. }
  split.
  { intros p -> Hz. apply Qeq_bool_iff in Hz. rewrite Hz. reflexivity. }
  split.
  { intros ->. reflexivity. }
  split.
  { rewrite <- durationOrOne_spec. apply durationOrOne_nonzero. }
  intros Hall. destruct (findActionPlan plans a) as [p|] eqn:F.
  - destruct (Qeq_bool _ 0) eqn:E; [discriminate|].
    destruct (Hall p (findActionPlan_In _ _ _ F)) as [Hz|Hge]; [|exact Hge].
    apply Qeq_bool_iff in Hz. congruence.
  - discriminate.
Qed.

Lemma processingTime_defaults_witness :
  processingTime (scoreAnomaly [three_day_plan] normal_anomaly) = 3 /\
  processingTime (scoreAnomaly [empty_plan] normal_anomaly) = 1 /\
  processingTime (scoreAnomaly [] normal_anomaly) = 1 /\
  1 <= processingTime (scoreAnomaly [empty_plan; three_day_plan] normal_anomaly).
Proof.
  split.
  { destruct (processingTime_defaults [three_day_plan] normal_anomaly)
      as (_ & _ & H & _).
    apply (H three_day_plan); [reflexivity | vm_compute; discriminate]. }
  split.
  { destruct (processingTime_defaults [empty_plan] normal_anomaly)
      as (_ & _ & _ & H & _).
    apply (H empty_plan); reflexivity. }
  split.
  { destruct (processingTime_defaults [] normal_anomaly)
      as (_ & _ & _ & _ & H & _).
    apply H. reflexivity. }
  destruct (processingTime_defaults [empty_plan; three_day_plan] normal_anomaly)
    as (_ & _ & _ & _ & _ & _ & H).
  apply H.
  intros p [<-|[<-|[]]]; [left; reflexivity | right; vm_compute; discriminate].
Defined.

(** C4 as stated fails: with a plan of 0 days the processing time is 1, not
    the plan's duration, and with a plan of half a day it is below 1. *)
Lemma processingTime_not_plan_duration :
  findActionPlan [empty_plan] normal_anomaly = Some empty_plan /\
  ~ processingTime (scoreAnomaly [empty_plan] normal_anomaly)
    == ActionPlan.totalDurationDays empty_plan /\
  ~ 1 <= processingTime (scoreAnomaly [half_day_plan] normal_anomaly).
Proof.
  split; [reflexivity|].
  split; vm_compute; [discriminate | intros H; apply H; reflexivity].
Qed.

(** ** Window utilization analysis *)

(** C5: the utilization is the workload over the capacity, times 100, for a
    positive capacity, and 0 for a capacity of zero or less: no division by
    zero takes place. *)
Theorem utilization_guards_capacity (treated : list Anomaly.t)
    (plans : list ActionPlan.t) (w : MaintenanceWindow.t) :
  totalWorkload (analyzeWindow treated plans w)
  = workloadOf plans (assignedAnomaliesOf treated w) /\
  (0 < MaintenanceWindow.durationDays w ->
   utilization (analyzeWindow treated plans w)
   = totalWorkload (analyzeWindow treated plans w)
     / MaintenanceWindow.durationDays w * 100) /\
  (MaintenanceWindow.durationDays w <= 0 ->
   utilization (analyzeWindow treated plans w) = 0).
Proof.
  simpl. unfold utilizationOf.
  split; [reflexivity|].
  split; intros H.
  - apply gt_true in H. rewrite H. reflexivity.
  - apply gt_false in H. rewrite H. reflexivity.
Qed.

Lemma utilization_guards_capacity_witness :
  utilization (analyzeWindow [long_anomaly "w-1"] [seventeen_day_plan]
                             (sample_window "w-1" 20)) == 85 /\
  utilization (analyzeWindow [long_anomaly "w-1"] [seventeen_day_plan]
                             (sample_window "w-1" 0)) = 0 /\
  utilization (analyzeWindow [long_anomaly "w-1"] [seventeen_day_plan]
                             (sample_window "w-1" (-2))) = 0.
Proof.
  split.
  { destruct (utilization_guards_capacity [long_anomaly "w-1"]
                [seventeen_day_plan] (sample_window "w-1" 20)) as (_ & H & _).
    rewrite H by reflexivity. vm_compute. reflexivity. }
  split.
  { destruct (utilization_guards_capacity [long_anomaly "w-1"]
                [seventeen_day_plan] (sample_window "w-1" 0)) as (_ & _ & H).
    apply H. vm_compute. discriminate. }
  destruct (utilization_guards_capacity [long_anomaly "w-1"]
              [seventeen_day_plan] (sample_window "w-1" (-2))) as (_ & _ & H).
  apply H. vm_compute. discriminate.
Defined.

(** *** The balance object *)

Lemma dom_assign {A : Type} (o : gmap string A) (k : string) (v : A) :
  dom (JS.assign o k v)
  = list_to_set (List.filter (fun l => negb (String.eqb l "__proto__")) [k])
    ∪ dom o.
Proof.
  unfold JS.assign. cbn [List.filter].
  destruct (String.eqb k "__proto__"); cbn [negb].
  - set_solver.
  - rewrite dom_insert_L. set_solver.
Qed.

Lemma dom_fold_countLevel (l : list Anomaly.t) (acc : gmap string Tally) :
  dom (fold_left countLevel l acc)
  = list_to_set (List.filter (fun l => negb (String.eqb l "__proto__"))
                             (map Anomaly.criticalityLevel l))
    ∪ dom acc.
Proof.
  revert acc. induction l as [|a l IH]; intros acc.
  - cbn. set_solver.
  - cbn [fold_left map]. rewrite IH. unfold countLevel.
    rewrite dom_assign. cbn [List.filter].
    destruct (negb (String.eqb (Anomaly.criticalityLevel a) "__proto__"));
      set_solver.
Qed.

(** The keys of the balance object are the distinct levels of the list, the
    name [__proto__] apart. *)
Lemma size_criticalityBalanceOf (l : list Anomaly.t) :
  size (dom (criticalityBalanceOf l))
  = length (List.filter (fun l => negb (String.eqb l "__proto__"))
                        (remove_dups (map Anomaly.criticalityLevel l))).
Proof.
  unfold criticalityBalanceOf. rewrite dom_fold_countLevel, dom_empty_L.
  set (P := fun l : string => negb (String.eqb l "__proto__")).
  set (L := map Anomaly.criticalityLevel l).
  rewrite <- (size_list_to_set (C := gset string)
                (List.filter P (remove_dups L))).
  - f_equal. apply set_eq. intros x.
    rewrite elem_of_union, !elem_of_list_to_set, !list_elem_of_In,
      !filter_In, <- !list_elem_of_In, elem_of_remove_dups.
    set_solver.
  - apply NoDup_ListNoDup, List.NoDup_filter, NoDup_ListNoDup,
      NoDup_remove_dups.
Qed.

Lemma filter_all {A : Type} (f : A -> bool) (l : list A) :
  (forall x, In x l -> f x = true) -> List.filter f l = l.
Proof.
  induction l as [|x l IH]; intros H; [reflexivity|].
  cbn [List.filter]. rewrite (H x) by (left; reflexivity).
  rewrite IH; [reflexivity|]. intros y Hy. apply H. right. exact Hy.
Qed.

Lemma efficiencyScoreOf_nonneg (u : Q) : 0 <= efficiencyScoreOf u.
Proof. unfold efficiencyScoreOf. apply Q.le_max_l. Qed.

Lemma efficiencyScoreOf_Proper (u v : Q) :
  u == v -> efficiencyScoreOf u == efficiencyScoreOf v.
Proof. unfold efficiencyScoreOf. intros ->. reflexivity. Qed.


(** C6: the balance score is ten times the number of distinct levels among
    the treated anomalies whose window reference is the window's identifier
    (a level named [__proto__], which no anomaly of the data model has,
    leaves no key); the efficiency score is the triangle around 85% cut at
    0, and the overall score is their mean. *)
Theorem window_scores (treated : list Anomaly.t) (plans : list ActionPlan.t)
    (w : MaintenanceWindow.t) :
  let wa := analyzeWindow treated plans w in
  let assigned :=
    List.filter (fun a => bool_decide (Anomaly.maintenanceWindowId a
                                       = Some (MaintenanceWindow.id w)))
                treated in
  let levels := remove_dups (map Anomaly.criticalityLevel assigned) in
  assignedAnomalies wa = assigned /\
  balanceScore wa
  = JS.of_nat (length (List.filter
                         (fun level => negb (String.eqb level "__proto__"))
                         levels)) * 10 /\
  (~ In "__proto__"%string levels ->
   balanceScore wa = JS.of_nat (length levels) * 10) /\
  efficiencyScore wa = Qmax 0 (100 - Qabs (85 - utilization wa)) /\
  0 <= efficiencyScore wa /\
  overallScore wa = (balanceScore wa + efficiencyScore wa) / 2 /\
  (utilization wa == 85 -> efficiencyScore wa == 100) /\
  (utilization wa == 0 -> efficiencyScore wa == 15) /\
  (utilization wa == 170 -> efficiencyScore wa == 15).
Proof.
  intros wa assigned levels.
  assert (Hb : balanceScore wa
               = JS.of_nat (length (List.filter
                              (fun level => negb (String.eqb level "__proto__"))
                              levels)) * 10).
  { subst wa. cbn [balanceScore analyzeWindow].
    rewrite size_criticalityBalanceOf. reflexivity. }
  split; [reflexivity|].
  split; [exact Hb|].
  split.
  { intros Hno. rewrite Hb, filter_all; [reflexivity|].
    intros x Hx. apply negb_true_iff, String.eqb_neq. intros ->. tauto. }
  split; [reflexivity|].
  split; [apply efficiencyScoreOf_nonneg|].
  split; [reflexivity|].
  split; [|split]; intros H;
    change (efficiencyScore wa) with (efficiencyScoreOf (utilization wa));
    rewrite (efficiencyScoreOf_Proper _ _ H); vm_compute; reflexivity.
Qed.

Lemma window_scores_witness :
  balanceScore (analyzeWindow mixed_anomalies [] (sample_window "w-1" 20))
  == 20 /\
  efficiencyScore (analyzeWindow [long_anomaly "w-1"] [seventeen_day_plan]
                                 (sample_window "w-1" 20)) == 100 /\
  efficiencyScore (analyzeWindow [long_anomaly "w-1"] [seventeen_day_plan]
                                 (sample_window "w-2" 20)) == 15 /\
  efficiencyScore (analyzeWindow [long_anomaly "w-1"] [seventeen_day_plan]
                                 (sample_window "w-1" 10)) == 15.
Proof.
  split.
  { destruct (window_scores mixed_anomalies [] (sample_window "w-1" 20))
      as (_ & _ & H & _).
    rewrite H; [vm_compute; reflexivity|].
    vm_compute. intros [E|[E|[]]]; discriminate. }
  split.
  { destruct (window_scores [long_anomaly "w-1"] [seventeen_day_plan]
                (sample_window "w-1" 20)) as (_ & _ & _ & _ & _ & _ & H & _).
    apply H. vm_compute. reflexivity. }
  split.
  { destruct (window_scores [long_anomaly "w-1"] [seventeen_day_plan]
                (sample_window "w-2" 20))
      as (_ & _ & _ & _ & _ & _ & _ & H & _).
    apply H. vm_compute. reflexivity. }
  destruct (window_scores [long_anomaly "w-1"] [seventeen_day_plan]
              (sample_window "w-1" 10)) as (_ & _ & _ & _ & _ & _ & _ & _ & H).
  apply H. vm_compute. reflexivity.
Defined.

(** ** Recommendations *)

Lemma filter_nonempty {A : Type} (f : A -> bool) (l : list A) :
  List.filter f l <> [] <-> exists x, In x l /\ f x = true.
Proof.
  split.
  - destruct (List.filter f l) as [|x l'] eqn:E; [congruence|].
    intros _. exists x. apply filter_In. rewrite E. left. reflexivity.
  - intros (x & Hx & Hf) E.
    assert (H : In x (List.filter f l)) by (apply filter_In; tauto).
    rewrite E in H. destruct H.
Qed.

Lemma In_pushIfAny {A : Type} (xs : list A) (r : nat -> Recommendation)
    (recs : list Recommendation) (x : Recommendation) :
  In x (pushIfAny xs r recs) <-> In x recs \/ (xs <> [] /\ x = r (length xs)).
Proof.
  unfold pushIfAny. destruct xs as [|y xs]; simpl.
  - split; [tauto | intros [H|[H _]]; [exact H | congruence]].
  - rewrite in_app_iff. simpl. split.
    + intros [H|[H|[]]]; [tauto | right; split; [discriminate | congruence]].
    + intros [H|[_ H]]; [tauto | right; left; congruence].
Qed.

Lemma In_generateRecommendations (anoms : list ScoredAnomaly)
    (windows : list WindowAnalysis) (x : Recommendation) :
  In x (generateRecommendations anoms windows) <->
  (List.filter isOverloaded windows <> [] /\
   x = overloadedRecommendation (length (List.filter isOverloaded windows))) \/
  (List.filter isUnderutilized windows <> [] /\
   x = underutilizedRecommendation
         (length (List.filter isUnderutilized windows))) \/
  (List.filter isUnscheduledCritical anoms <> [] /\
   x = unscheduledCriticalRecommendation
         (length (List.filter isUnscheduledCritical anoms))).
Proof.
  unfold generateRecommendations. rewrite !In_pushIfAny. simpl. tauto.
Qed.

Lemma isOverloaded_true (w : WindowAnalysis) :
  isOverloaded w = true <-> 100 < utilization w.
Proof. apply gt_true. Qed.

Lemma isUnderutilized_true (w : WindowAnalysis) :
  isUnderutilized w = true <-> 0 < utilization w /\ utilization w < 50.
Proof.
  unfold isUnderutilized. rewrite andb_true_iff, lt_true, gt_true. tauto.
Qed.

Lemma isUnscheduledCritical_true (a : ScoredAnomaly) :
  isUnscheduledCritical a = true <->
  Anomaly.criticalityLevel (anomaly a) = "critical"%string /\
  hasNoWindow (anomaly a) = true.
Proof.
  unfold isUnscheduledCritical. rewrite andb_true_iff, String.eqb_eq. tauto.
Qed.

(** C7: a warning is emitted exactly when some window is above 100%, and its
    text names the number of such windows; an info exactly when some window
    is strictly between 0% and 50%; an error exactly when some critical
    anomaly has no window.  The info and the error name their counts too. *)
Theorem recommendations_exactly_when (anoms : list ScoredAnomaly)
    (windows : list WindowAnalysis) :
  let recs := generateRecommendations anoms windows in
  let overloaded :=
    length (List.filter (fun w => JS.gt (utilization w) 100) windows) in
  let underutilized :=
    length (List.filter (fun w => JS.lt (utilization w) 50
                                  && JS.gt (utilization w) 0) windows) in
  let critical :=
    length (List.filter
              (fun a => negb (JS.truthy_string
                                (Anomaly.maintenanceWindowId (anomaly a)))
                        && String.eqb (Anomaly.criticalityLevel (anomaly a))
                                      "critical") anoms) in
  ((exists r, In r recs /\ rec_type r = "warning"%string) <->
   (exists w, In w windows /\ 100 < utilization w)) /\
  (forall r, In r recs -> rec_type r = "warning"%string ->
     r = mkRecommendation "warning" "Fenêtres Surchargées"
           (pretty overloaded +:+ " fenêtre(s) dépassent leur capacité")
           "Redistribuer les anomalies ou étendre la durée") /\
  ((exists r, In r recs /\ rec_type r = "info"%string) <->
   (exists w, In w windows /\ 0 < utilization w /\ utilization w < 50)) /\
  (forall r, In r recs -> rec_type r = "info"%string ->
     description r
     = pretty underutilized +:+ " fenêtre(s) peuvent accueillir plus d'anomalies") /\
  ((exists r, In r recs /\ rec_type r = "error"%string) <->
   (exists a, In a anoms /\
              Anomaly.criticalityLevel (anomaly a) = "critical"%string /\
              hasNoWindow (anomaly a) = true)) /\
  (forall r, In r recs -> rec_type r = "error"%string ->
     description r
     = pretty critical
       +:+ " anomalie(s) critiques nécessitent une attention immédiate").
Proof.
  intros recs overloaded underutilized critical.
  subst recs overloaded underutilized critical.
  assert (Hov : List.filter isOverloaded windows <> [] <->
                exists w, In w windows /\ 100 < utilization w).
  { rewrite filter_nonempty. split; intros (w & Hw & H); exists w;
      (split; [exact Hw | apply isOverloaded_true; exact H]). }
  assert (Hun : List.filter isUnderutilized windows <> [] <->
                exists w, In w windows /\ 0 < utilization w /\
                          utilization w < 50).
  { rewrite filter_nonempty. split; intros (w & Hw & H); exists w;
      (split; [exact Hw | apply isUnderutilized_true; exact H]). }
  assert (Hcr : List.filter isUnscheduledCritical anoms <> [] <->
                exists a, In a anoms /\
                  Anomaly.criticalityLevel (anomaly a) = "critical"%string /\
                  hasNoWindow (anomaly a) = true).
  { rewrite filter_nonempty. split; intros (a & Ha & H); exists a;
      (split; [exact Ha | apply isUnscheduledCritical_true; exact H]). }
  rewrite <- Hov, <- Hun, <- Hcr.
  split; [|split; [|split; [|split; [|split]]]].
  - split.
    + intros (r & Hr & Ht). apply In_generateRecommendations in Hr.
      destruct Hr as [[H _]|[[_ ->]|[_ ->]]]; [exact H | discriminate..].
    + intros H.
      exists (overloadedRecommendation
                (length (List.filter isOverloaded windows))).
      split; [|reflexivity].
      apply In_generateRecommendations. left. split; [exact H | reflexivity].
  - intros r Hr Ht. apply In_generateRecommendations in Hr.
    destruct Hr as [[_ ->]|[[_ ->]|[_ ->]]]; [reflexivity | discriminate..].
  - split.
    + intros (r & Hr & Ht). apply In_generateRecommendations in Hr.
      destruct Hr as [[_ ->]|[[H _]|[_ ->]]]; [discriminate | exact H | discriminate].
    + intros H.
      exists (underutilizedRecommendation
                (length (List.filter isUnderutilized windows))).
      split; [|reflexivity].
      apply In_generateRecommendations. right. left.
      split; [exact H | reflexivity].
  - intros r Hr Ht. apply In_generateRecommendations in Hr.
    destruct Hr as [[_ ->]|[[_ ->]|[_ ->]]];
      [discriminate | reflexivity | discriminate].
  - split.
    + intros (r & Hr & Ht). apply In_generateRecommendations in Hr.
      destruct Hr as [[_ ->]|[[_ ->]|[H _]]]; [discriminate.. | exact H].
    + intros H.
      exists (unscheduledCriticalRecommendation
                (length (List.filter isUnscheduledCritical anoms))).
      split; [|reflexivity].
      apply In_generateRecommendations. right. right.
      split; [exact H | reflexivity].
  - intros r Hr Ht. apply In_generateRecommendations in Hr.
    destruct Hr as [[_ ->]|[[_ ->]|[_ ->]]]; [discriminate.. | reflexivity].
Qed.

Lemma recommendations_exactly_when_witness :
  (exists r,
     In r (generateRecommendations [critical_unscheduled]
             [analysis_at 120; analysis_at 30; analysis_at 85; analysis_at 170])
     /\ description r = "2 fenêtre(s) dépassent leur capacité"%string) /\
  (exists r, In r (generateRecommendations [critical_unscheduled]
                     [analysis_at 120; analysis_at 30]) /\
             rec_type r = "error"%string).
Proof.
  split.
  - destruct (recommendations_exactly_when [critical_unscheduled]
                [analysis_at 120; analysis_at 30; analysis_at 85;
                 analysis_at 170]) as (H1 & H2 & _).
    destruct (proj2 H1) as (r & Hr & Ht).
    { exists (analysis_at 120). split; [left; reflexivity | reflexivity]. }
    exists r. split; [exact Hr|]. rewrite (H2 r Hr Ht). reflexivity.
  - apply (recommendations_exactly_when [critical_unscheduled]
             [analysis_at 120; analysis_at 30]).
    exists critical_unscheduled.
    split; [left; reflexivity | split; reflexivity].
Defined.

(** ** The stable sort *)

Section SortFacts.
Context {A : Type} (key : A -> Q) (compareFn : A -> A -> Q).
Hypothesis compareFn_key : forall x y, compareFn x y == key y - key x.

Lemma compareFn_le (x y : A) :
  Qle_bool (compareFn x y) 0 = true <-> key y <= key x.
Proof. rewrite Qle_bool_iff, compareFn_key. split; intros H; lra. Qed.

Lemma compareFn_gt (x y : A) :
  Qle_bool (compareFn x y) 0 = false -> key x < key y.
Proof.
  intros H. apply Qnot_le_lt. intros Hle.
  apply compareFn_le in Hle. congruence.
Qed.

Lemma sort_insert_perm (x : A) (l : list A) :
  Permutation (x :: l) (sort_insert compareFn x l).
Proof.
  induction l as [|y l IH]; simpl; [reflexivity|].
  destruct (Qle_bool (compareFn x y) 0); [reflexivity|].
  rewrite perm_swap. apply perm_skip. exact IH.
Qed.

Lemma array_sort_perm (l : list A) : Permutation l (array_sort compareFn l).
Proof.
  induction l as [|x l IH]; simpl; [reflexivity|].
  rewrite <- sort_insert_perm. apply perm_skip. exact IH.
Qed.

Lemma sort_insert_sorted (x : A) (l : list A) :
  StronglySorted (descending key) l ->
  StronglySorted (descending key) (sort_insert compareFn x l).
Proof.
  induction 1 as [|y l Hs IH Hy]; simpl.
  - constructor; [constructor | constructor].
  - destruct (Qle_bool (compareFn x y) 0) eqn:E.
    + apply compareFn_le in E.
      constructor; [constructor; assumption|].
      constructor; [exact E|].
      eapply Forall_impl; [exact Hy|].
      unfold descending. intros z Hz. lra.
    + apply compareFn_gt in E.
      constructor; [exact IH|].
      rewrite <- sort_insert_perm.
      constructor; [unfold descending; lra | exact Hy].
Qed.

Lemma array_sort_sorted (l : list A) :
  StronglySorted (descending key) (array_sort compareFn l).
Proof.
  induction l as [|x l IH]; simpl; [constructor|].
  apply sort_insert_sorted. exact IH.
Qed.

(** Elements of equal key keep their order: the sort never moves an element
    across one of the same key. *)
Lemma sort_insert_stable (e : Q) (x : A) (l : list A) :
  List.filter (fun a => Qeq_bool (key a) e) (sort_insert compareFn x l)
  = List.filter (fun a => Qeq_bool (key a) e) (x :: l).
Proof.
  induction l as [|y l IH]; [reflexivity|].
  cbn [sort_insert].
  destruct (Qle_bool (compareFn x y) 0) eqn:E; [reflexivity|].
  apply compareFn_gt in E.
  cbn [List.filter] in *. rewrite IH.
  destruct (Qeq_bool (key x) e) eqn:Ex, (Qeq_bool (key y) e) eqn:Ey;
    try reflexivity.
  apply Qeq_bool_iff in Ex, Ey. exfalso. lra.
Qed.

Lemma array_sort_stable (e : Q) (l : list A) :
  List.filter (fun a => Qeq_bool (key a) e) (array_sort compareFn l)
  = List.filter (fun a => Qeq_bool (key a) e) l.
Proof.
  induction l as [|x l IH]; [reflexivity|].
  cbn [array_sort]. rewrite sort_insert_stable.
  cbn [List.filter]. rewrite IH. reflexivity.
Qed.
End SortFacts.



(** *** A stable descending order is unique *)

Section StableUnique.
Context {A : Type} (key : A -> Q).




End StableUnique.

(** *** The ranking of the scored anomalies *)








(** ** The auto-scheduler of the planning engine *)











(** ** The auto-scheduling handler *)



















(** *** Workloads and identifiers *)

Lemma durationOrOne_pos (plans : list ActionPlan.t) (a : Anomaly.t) :
  (forall p, In p plans -> 0 <= ActionPlan.totalDurationDays p) ->
  0 < durationOrOne (findActionPlan plans a).
Proof.
  intros Hplans. rewrite durationOrOne_spec.
  destruct (findActionPlan plans a) as [p|] eqn:F; [|reflexivity].
  destruct (Qeq_bool (ActionPlan.totalDurationDays p) 0) eqn:E; [reflexivity|].
  pose proof (Hplans p (findActionPlan_In _ _ _ F)) as Hp.
  destruct (Qlt_le_dec 0 (ActionPlan.totalDurationDays p)) as [H|H]; [exact H|].
  assert (Hz : ActionPlan.totalDurationDays p == 0) by lra.
  apply Qeq_bool_iff in Hz. congruence.
Qed.



Lemma unique_key {A : Type} (key : A -> string) (l : list A) (x y : A) :
  NoDup (map key l) -> In x l -> In y l -> key x = key y -> x = y.
Proof.
  induction l as [|z l IH]; simpl; [tauto|].
  intros Hnd Hx Hy E. apply NoDup_cons in Hnd. destruct Hnd as [Hz Hnd].
  rewrite list_elem_of_In in Hz.
  destruct Hx as [->|Hx], Hy as [->|Hy]; auto.
  - exfalso. apply Hz. rewrite E. apply in_map, Hy.
  - exfalso. apply Hz. rewrite <- E. apply in_map, Hx.
Qed.

Lemma unique_id (l : list Anomaly.t) (x y : Anomaly.t) :
  NoDup (map Anomaly.id l) -> In x l -> In y l ->
  Anomaly.id x = Anomaly.id y -> x = y.
Proof. apply unique_key. Qed.

Lemma assignedTo_moved_out (w : MaintenanceWindow.t) (x : Anomaly.t)
    (t : string) :
  t <> MaintenanceWindow.id w ->
  assignedTo w (Anomaly.with_window x (Some t)) = false.
Proof.
  intros H. unfold assignedTo. apply bool_decide_eq_false_2.
  simpl. congruence.
Qed.

Lemma assignedTo_false (w : MaintenanceWindow.t) (x : Anomaly.t) :
  Anomaly.maintenanceWindowId x <> Some (MaintenanceWindow.id w) ->
  assignedTo w x = false.
Proof. intros H. unfold assignedTo. apply bool_decide_eq_false_2. exact H. Qed.

Lemma of_nat_le (n m : nat) : (n <= m)%nat -> JS.of_nat n <= JS.of_nat m.
Proof.
  intros H. unfold JS.of_nat. rewrite <- Zle_Qle. lia.
Qed.



(** * Further properties *)

(** ** The lists of the planning page and of the summary component *)

Lemma filter_filter_andb {A : Type} (f g : A -> bool) (l : list A) :
  List.filter g (List.filter f l) = List.filter (fun x => f x && g x) l.
Proof.
  induction l as [|x l IH]; simpl; [reflexivity|].
  destruct (f x); simpl; [|exact IH].
  destruct (g x); rewrite IH; reflexivity.
Qed.

Lemma filter_split_perm {A : Type} (f : A -> bool) (l : list A) :
  Permutation l (List.filter f l ++ List.filter (fun x => negb (f x)) l).
Proof.
  induction l as [|x l IH]; simpl; [reflexivity|].
  destruct (f x); simpl.
  - apply perm_skip. exact IH.
  - rewrite <- Permutation_middle. apply perm_skip. exact IH.
Qed.

(** X1: the treated anomalies fall into those without a window and those
    with one; no anomaly is in both lists, and the two lists are the ones
    the summary component computes from all anomalies. *)
Theorem treated_anomalies_split (ctx : DataContext) :
  Permutation (treatedAnomalies ctx)
              (unscheduledTreatedAnomalies ctx ++ scheduledTreatedAnomalies ctx) /\
  (forall a, In a (unscheduledTreatedAnomalies ctx) ->
             In a (scheduledTreatedAnomalies ctx) -> False) /\
  TreatedAnomaliesStatus.treatedUnassigned (anomalies ctx)
  = unscheduledTreatedAnomalies ctx /\
  TreatedAnomaliesStatus.treatedAssigned (anomalies ctx)
  = scheduledTreatedAnomalies ctx.
Proof.
  unfold unscheduledTreatedAnomalies, scheduledTreatedAnomalies,
    TreatedAnomaliesStatus.treatedUnassigned,
    TreatedAnomaliesStatus.treatedAssigned, treatedAnomalies, hasNoWindow.
  split; [|split; [|split]].
  - rewrite Permutation_app_comm.
    apply (filter_split_perm
             (fun a => JS.truthy_string (Anomaly.maintenanceWindowId a))).
  - intros a H1 H2. apply filter_In in H1, H2.
    destruct H1 as [_ H1], H2 as [_ H2]. rewrite H2 in H1. discriminate.
  - symmetry. apply filter_filter_andb.
  - symmetry. apply filter_filter_andb.
Qed.

(** X2: the summary component is hidden exactly when no anomaly is treated. *)
Theorem summary_hidden_iff_nothing_treated (l : list Anomaly.t) :
  TreatedAnomaliesStatus.hidden l = true <->
  (forall a, In a l -> Anomaly.status a <> "treated"%string).
Proof.
  unfold TreatedAnomaliesStatus.hidden,
    TreatedAnomaliesStatus.treatedUnassigned,
    TreatedAnomaliesStatus.treatedAssigned.
  rewrite andb_true_iff, !Nat.eqb_eq, !length_zero_iff_nil.
  split.
  - intros [H1 H2] a Ha E.
    destruct (JS.truthy_string (Anomaly.maintenanceWindowId a)) eqn:T.
    + assert (Hin : In a (List.filter
                (fun a => String.eqb (Anomaly.status a) "treated"
                          && JS.truthy_string (Anomaly.maintenanceWindowId a)) l)).
      { apply filter_In. split; [exact Ha|].
        rewrite T, E. reflexivity. }
      rewrite H2 in Hin. destruct Hin.
    + assert (Hin : In a (List.filter
                (fun a => String.eqb (Anomaly.status a) "treated"
                          && negb (JS.truthy_string
                                     (Anomaly.maintenanceWindowId a))) l)).
      { apply filter_In. split; [exact Ha|].
        rewrite T, E. reflexivity. }
      rewrite H1 in Hin. destruct Hin.
  - intros H. split.
    + destruct (List.filter _ l) as [|a l'] eqn:E; [reflexivity|].
      assert (Hin : In a (a :: l')) by (left; reflexivity).
      rewrite <- E in Hin. apply filter_In in Hin. destruct Hin as [Ha Hs].
      apply andb_true_iff in Hs. destruct Hs as [Hs _].
      apply String.eqb_eq in Hs. exfalso. exact (H a Ha Hs).
    + destruct (List.filter _ l) as [|a l'] eqn:E; [reflexivity|].
      assert (Hin : In a (a :: l')) by (left; reflexivity).
      rewrite <- E in Hin. apply filter_In in Hin. destruct Hin as [Ha Hs].
      apply andb_true_iff in Hs. destruct Hs as [Hs _].
      apply String.eqb_eq in Hs. exfalso. exact (H a Ha Hs).
Qed.

Lemma summary_hidden_iff_nothing_treated_witness :
  TreatedAnomaliesStatus.hidden
    [Anomaly.mk "a" "new" "low" None None None None None None None None] = true.
Proof.
  apply summary_hidden_iff_nothing_treated.
  intros a [<-|[]]. discriminate.
Defined.

Lemma filter_length_perm {A : Type} (f : A -> bool) (l l' : list A) :
  Permutation l l' -> length (List.filter f l) = length (List.filter f l').
Proof.
  induction 1 as [|x l l' _ IH|x y l|l l' l'' _ IH1 _ IH2]; simpl.
  - reflexivity.
  - destruct (f x); simpl; congruence.
  - destruct (f x), (f y); reflexivity.
  - congruence.
Qed.

Lemma filter_map_comm {A B : Type} (g : A -> B) (f : B -> bool) (l : list A) :
  List.filter f (map g l) = map g (List.filter (fun x => f (g x)) l).
Proof.
  induction l as [|x l IH]; simpl; [reflexivity|].
  destruct (f (g x)); simpl; rewrite IH; reflexivity.
Qed.

(** X3: the number of critical anomalies that the summary component shows as
    waiting is the number that the error recommendation of the planning page
    names; the recommendation is there exactly when that number is not zero. *)
Theorem critical_waiting_is_recommended (ctx : DataContext) :
  let n := length (TreatedAnomaliesStatus.criticalUnassigned (anomalies ctx)) in
  let recs :=
    planning_recommendations
      (calculateOptimalScheduling (treatedAnomalies ctx)
         (maintenanceWindows ctx) (actionPlans ctx)) in
  (n <> O -> In (unscheduledCriticalRecommendation n) recs) /\
  (n = O -> forall r, In r recs -> rec_type r <> "error"%string).
Proof.
  intros n recs.
  assert (Hn : n = length (List.filter isUnscheduledCritical
                 (sortedAnomalies (treatedAnomalies ctx) (actionPlans ctx)))).
  { subst n. unfold TreatedAnomaliesStatus.criticalUnassigned,
      TreatedAnomaliesStatus.treatedUnassigned, sortedAnomalies.
    rewrite <- (filter_length_perm isUnscheduledCritical _ _
                  (array_sort_perm byEfficiency
                     (map (scoreAnomaly (actionPlans ctx))
                          (treatedAnomalies ctx)))).
    rewrite filter_map_comm, length_map.
    unfold treatedAnomalies. rewrite !filter_filter_andb.
    f_equal. apply filter_ext. intros a.
    unfold isUnscheduledCritical, hasNoWindow. simpl.
    rewrite andb_assoc. reflexivity. }
  subst recs. simpl. split.
  - intros Hne. apply In_generateRecommendations. right. right.
    rewrite <- Hn. split; [|reflexivity].
    intros E. apply Hne. rewrite Hn, E. reflexivity.
  - intros Hz r Hr Ht. apply In_generateRecommendations in Hr.
    destruct Hr as [[_ ->]|[[_ ->]|[Hne _]]]; try discriminate.
    apply Hne. apply length_zero_iff_nil. congruence.
Qed.

Lemma critical_waiting_is_recommended_witness :
  In (unscheduledCriticalRecommendation 1)
     (planning_recommendations
        (calculateOptimalScheduling (treatedAnomalies busy_context)
           (maintenanceWindows busy_context) (actionPlans busy_context))).
Proof.
  apply (critical_waiting_is_recommended busy_context).
  vm_compute. discriminate.
Defined.

(** ** Deleting a window *)

Lemma applyEffects_app (ctx : DataContext) (es1 es2 : list Effect) :
  applyEffects ctx (es1 ++ es2) = applyEffects (applyEffects ctx es1) es2.
Proof. unfold applyEffects. apply fold_left_app. Qed.

(** Storing one window reference for a list of identifiers changes exactly
    the anomalies that bear one of them. *)
Lemma update_all (w : option string) (ids : list string) (ctx : DataContext) :
  applyEffects ctx (map (fun i => UpdateAnomaly i w) ids)
  = mkContext
      (map (fun a => if bool_decide (Anomaly.id a ∈ ids)
                     then Anomaly.with_window a w else a) (anomalies ctx))
      (maintenanceWindows ctx) (actionPlans ctx).
Proof.
  revert ctx. induction ids as [|i ids IH]; intros ctx.
  - destruct ctx as [l ws ps]. unfold applyEffects. simpl. f_equal.
    symmetry. erewrite map_ext; [apply map_id|].
    intros a. reflexivity.
  - cbn [map]. unfold applyEffects in *. cbn [fold_left]. rewrite IH.
    simpl. f_equal. rewrite map_map. apply map_ext. intros a.
    destruct (String.eqb_spec (Anomaly.id a) i) as [E|E].
    + rewrite (bool_decide_eq_true_2 (Anomaly.id a ∈ i :: ids))
        by (rewrite E; set_solver).
      simpl. destruct (bool_decide (Anomaly.id a ∈ ids)); reflexivity.
    + destruct (bool_decide (Anomaly.id a ∈ ids)) eqn:D.
      * apply bool_decide_eq_true in D.
        rewrite bool_decide_eq_true_2 by set_solver. reflexivity.
      * apply bool_decide_eq_false in D.
        rewrite bool_decide_eq_false_2 by set_solver. reflexivity.
Qed.

Lemma unassign_all (ids : list string) (ctx : DataContext) :
  applyEffects ctx (map (fun i => UpdateAnomaly i None) ids)
  = mkContext
      (map (fun a => if bool_decide (Anomaly.id a ∈ ids)
                     then Anomaly.with_window a None else a) (anomalies ctx))
      (maintenanceWindows ctx) (actionPlans ctx).
Proof. apply update_all. Qed.

Lemma after_handleDeleteWindow (windowId : string) (ctx : DataContext) :
  applyEffects ctx (handleDeleteWindow windowId ctx)
  = mkContext
      (map (fun a =>
              if bool_decide
                   (Anomaly.id a ∈
                      map Anomaly.id
                        (List.filter
                           (fun a => bool_decide
                              (Anomaly.maintenanceWindowId a = Some windowId))
                           (anomalies ctx)))
              then Anomaly.with_window a None else a) (anomalies ctx))
      (List.filter (fun w => negb (String.eqb (MaintenanceWindow.id w) windowId))
                   (maintenanceWindows ctx))
      (actionPlans ctx).
Proof.
  unfold handleDeleteWindow. rewrite applyEffects_app.
  rewrite <- (map_map Anomaly.id (fun i => UpdateAnomaly i None)).
  rewrite unassign_all. reflexivity.
Qed.

(** X4: once a window is deleted, no anomaly refers to it and the window
    store holds the other windows, all of them; the anomalies keep their
    identifiers, and with unique identifiers an anomaly of another window
    is left as it was. *)
Theorem delete_window_unassigns (windowId : string) (ctx : DataContext) :
  let ctx' := applyEffects ctx (handleDeleteWindow windowId ctx) in
  (forall a, In a (anomalies ctx') ->
             Anomaly.maintenanceWindowId a <> Some windowId) /\
  (forall w, In w (maintenanceWindows ctx') <->
             In w (maintenanceWindows ctx) /\ MaintenanceWindow.id w <> windowId) /\
  map Anomaly.id (anomalies ctx') = map Anomaly.id (anomalies ctx) /\
  (NoDup (map Anomaly.id (anomalies ctx)) ->
   forall a, In a (anomalies ctx) ->
             Anomaly.maintenanceWindowId a <> Some windowId ->
             In a (anomalies ctx')).
Proof.
  intros ctx'. subst ctx'. rewrite after_handleDeleteWindow. simpl.
  set (assigned := List.filter _ (anomalies ctx)).
  assert (Hassigned : forall a, In a (anomalies ctx) ->
            Anomaly.maintenanceWindowId a = Some windowId ->
            Anomaly.id a ∈ map Anomaly.id assigned).
  { intros a Ha Hw. apply list_elem_of_In, in_map. subst assigned.
    apply filter_In. split; [exact Ha|].
    apply bool_decide_eq_true_2. exact Hw. }
  split; [|split; [|split]].
  - intros a' Ha'. apply in_map_iff in Ha'. destruct Ha' as (a & <- & Ha).
    destruct (bool_decide (Anomaly.id a ∈ map Anomaly.id assigned)) eqn:D.
    + simpl. discriminate.
    + intros Hw. apply bool_decide_eq_false in D. apply D.
      apply Hassigned; assumption.
  - intros w. rewrite filter_In, negb_true_iff, String.eqb_neq. reflexivity.
  - rewrite map_map. apply map_ext. intros a.
    destruct (bool_decide _); reflexivity.
  - intros Hnd a Ha Hw. apply in_map_iff. exists a. split; [|exact Ha].
    rewrite bool_decide_eq_false_2; [reflexivity|].
    intros Hin. apply list_elem_of_In, in_map_iff in Hin.
    destruct Hin as (b & Hid & Hb). subst assigned.
    apply filter_In in Hb. destruct Hb as [Hb Hbw].
    apply bool_decide_eq_true in Hbw.
    rewrite (unique_id (anomalies ctx) b a Hnd Hb Ha Hid) in Hbw.
    contradiction.
Qed.

Lemma delete_window_unassigns_witness :
  In (sample_anomaly "a-10" "low" None (Some "w-2"%string) (Some 1))
     (anomalies (applyEffects busy_context
                   (handleDeleteWindow "w-1" busy_context))).
Proof.
  apply (delete_window_unassigns "w-1" busy_context).
  - vm_compute. repeat constructor; set_solver.
  - right. right. right. left. reflexivity.
  - discriminate.
Defined.

(** ** More on the auto-scheduling handler *)

Lemma anomalyUpdates_app (es1 es2 : list Effect) :
  anomalyUpdates (es1 ++ es2) = anomalyUpdates es1 ++ anomalyUpdates es2.
Proof. unfold anomalyUpdates. apply omap_app. Qed.

Lemma anomalyUpdates_of_assignments (l : list Assignment) :
  anomalyUpdates
    (map (fun x => UpdateAnomaly (anomalyId x) (Some (windowId x))) l)
  = map (fun x => (anomalyId x, Some (windowId x))) l.
Proof. induction l as [|x l IH]; simpl; [reflexivity|]. f_equal. exact IH. Qed.

Lemma anomalyUpdates_reportUnassigned (existing : list MaintenanceWindow.t)
    (r : ScheduleResults) :
  anomalyUpdates (reportUnassigned existing r) = [].
Proof.
  unfold reportUnassigned. destruct (unassignedCount existing r); reflexivity.
Qed.

Lemma filter_complement_length {A : Type} (f g : A -> bool) (l : list A) :
  (forall x, g x = negb (f x)) ->
  (length (List.filter f l) + length (List.filter g l) = length l)%nat.
Proof.
  intros H. induction l as [|x l IH]; simpl; [reflexivity|].
  rewrite H. destruct (f x); simpl; lia.
Qed.

Lemma size_list_to_set_le (l : list string) :
  (size (list_to_set l : gset string) <= length l)%nat.
Proof.
  induction l as [|x l IH].
  - rewrite list_to_set_nil, size_empty. simpl. lia.
  - rewrite list_to_set_cons, size_union_alt, size_singleton. simpl.
    assert (H : (size (list_to_set l ∖ {[x]} : gset string)
                 <= size (list_to_set l : gset string))%nat).
    { apply subseteq_size. set_solver. }
    lia.
Qed.

(** X5: of the assignments that the engine answers, the handler applies
    those to windows that were available before the call, in the engine's
    order, and no other; each assignment is either applied or counted as
    going to a new window, and the number reported as unassigned never
    exceeds the engine's unassigned anomalies plus the dropped assignments. *)
Theorem auto_schedule_applies_valid_assignments
    (engine : list Anomaly.t -> list MaintenanceWindow.t ->
              list ActionPlan.t -> option ScheduleResults)
    (now : Z) (ctx : DataContext) (r : ScheduleResults) (l : list Assignment) :
  unscheduledTreatedAnomalies ctx <> [] ->
  engine (unscheduledTreatedAnomalies ctx) (availableWindows now ctx)
         (actionPlans ctx) = Some r ->
  assignments r = Some l ->
  anomalyUpdates (handleAutoSchedule engine now ctx)
  = map (fun x => (anomalyId x, Some (windowId x)))
        (validAssignments (availableWindows now ctx) l) /\
  (length (validAssignments (availableWindows now ctx) l)
   + length (assignmentsToNewWindows (availableWindows now ctx) l)
   = length l)%nat /\
  (unassignedCount (availableWindows now ctx) r
   <= length (default [] (unassigned r))
      + length (assignmentsToNewWindows (availableWindows now ctx) l))%nat.
Proof.
  intros Hne Hr Hl. split; [|split].
  - unfold handleAutoSchedule.
    destruct (unscheduledTreatedAnomalies ctx) as [|a rest]; [congruence|].
    rewrite Hr, anomalyUpdates_app, anomalyUpdates_reportUnassigned, app_nil_r.
    unfold applyAssignments. rewrite Hl.
    destruct l as [|x l']; [reflexivity|].
    rewrite anomalyUpdates_app.
    destruct (validAssignments (availableWindows now ctx) (x :: l'))
      as [|v vs] eqn:Ev.
    + destruct (length (x :: l') - length (@nil Assignment))%nat; reflexivity.
    + rewrite anomalyUpdates_app, anomalyUpdates_of_assignments.
      destruct (length (x :: l') - length (v :: vs))%nat; simpl;
        rewrite ?app_nil_r; reflexivity.
  - apply filter_complement_length. intros x. f_equal.
    apply bool_decide_ext. rewrite elem_of_list_to_set. reflexivity.
  - unfold unassignedCount. rewrite Hl.
    pose proof (size_list_to_set_le
                  (map anomalyId
                       (assignmentsToNewWindows (availableWindows now ctx) l)))
      as Hs.
    rewrite length_map in Hs.
    destruct (unassigned r); simpl; lia.
Qed.

Lemma auto_schedule_applies_valid_assignments_witness :
  anomalyUpdates (handleAutoSchedule inventive_engine 0 planning_context) = [].
Proof.
  destruct (auto_schedule_applies_valid_assignments inventive_engine 0
              planning_context
              (mkResults (Some [mkAssignment "a-5" "w-auto"])
                         (Some ["a-6"%string]))
              [mkAssignment "a-5" "w-auto"]) as (H & _).
  - vm_compute. discriminate.
  - reflexivity.
  - reflexivity.
  - exact H.
Defined.

(** X6: with nothing to schedule, or when the engine fails, the handler
    leaves the data context exactly as it was, and announces no success. *)
Theorem auto_schedule_idle_or_failed
    (engine : list Anomaly.t -> list MaintenanceWindow.t ->
              list ActionPlan.t -> option ScheduleResults)
    (now : Z) (ctx : DataContext) :
  (unscheduledTreatedAnomalies ctx = [] ->
   handleAutoSchedule engine now ctx = []) /\
  (engine (unscheduledTreatedAnomalies ctx) (availableWindows now ctx)
          (actionPlans ctx) = None ->
   afterAutoSchedule engine now ctx = ctx /\
   (forall m, ~ In (ToastSuccess m) (handleAutoSchedule engine now ctx)) /\
   (unscheduledTreatedAnomalies ctx <> [] ->
    In (ToastError "Échec de la planification automatique")
       (handleAutoSchedule engine now ctx))).
Proof.
  unfold afterAutoSchedule, handleAutoSchedule. split.
  - intros ->. reflexivity.
  - intros ->. destruct (unscheduledTreatedAnomalies ctx) as [|a l].
    + split; [reflexivity|]. split; [intros m []|congruence].
    + split; [reflexivity|]. split.
      * intros m [H|[H|[]]]; discriminate.
      * intros _. right. left. reflexivity.
Qed.

Lemma auto_schedule_idle_or_failed_witness :
  afterAutoSchedule (fun _ _ _ => None) 0 planning_context = planning_context /\
  handleAutoSchedule inventive_engine 0 settled_context = [].
Proof.
  split.
  - apply (auto_schedule_idle_or_failed (fun _ _ _ => None) 0 planning_context).
    reflexivity.
  - apply (auto_schedule_idle_or_failed inventive_engine 0 settled_context).
    reflexivity.
Defined.

(** ** Ranges of the scores *)

Lemma criticalityWeight_cases (level : string) :
  JS.inherited level = false ->
  (level = "critical"%string /\ criticalityWeight level = JS.Num 10) \/
  (level = "high"%string /\ criticalityWeight level = JS.Num 7) \/
  (level = "medium"%string /\ criticalityWeight level = JS.Num 4) \/
  criticalityWeight level = JS.Num 1.
Proof.
  unfold criticalityWeight. intros ->.
  destruct (criticalityWeights !! level) as [v|] eqn:E; [|auto].
  apply elem_of_list_to_map_2 in E.
  repeat (apply elem_of_cons in E; destruct E as [E|E];
          [injection E as E1 E2; subst; auto 6|]).
  apply elem_of_nil in E. destruct E.
Qed.

Lemma equipmentFactor_cases (a : Anomaly.t) :
  (JS.truthy_string (Anomaly.equipmentId a) = true /\ equipmentFactor a = 1.2) \/
  (JS.truthy_string (Anomaly.equipmentId a) = false /\ equipmentFactor a = 1.0).
Proof.
  unfold equipmentFactor.
  destruct (JS.truthy_string (Anomaly.equipmentId a)); auto.
Qed.

(** The urgency of an anomaly whose level is no inherited name. *)
Lemma urgency_number (plans : list ActionPlan.t) (a : Anomaly.t) :
  JS.inherited (Anomaly.criticalityLevel a) = false ->
  exists u,
    urgencyScore (scoreAnomaly plans a) = JS.Num u /\
    efficiency (scoreAnomaly plans a)
    = JS.Num (u / processingTime (scoreAnomaly plans a)) /\
    1 <= u /\ u <= 12 /\
    (12 <= u -> Anomaly.criticalityLevel a = "critical"%string /\
                JS.truthy_string (Anomaly.equipmentId a) = true).
Proof.
  intros Hlevel.
  cbn [urgencyScore efficiency processingTime scoreAnomaly].
  destruct (criticalityWeight_cases (Anomaly.criticalityLevel a) Hlevel)
    as [[Hl ->] | [[Hl ->] | [[Hl ->] | ->]]];
    destruct (equipmentFactor_cases a) as [[He ->]|[He ->]];
    eexists; (split; [reflexivity|]); (split; [reflexivity|]);
    (split; [vm_compute; discriminate|]);
    (split; [vm_compute; discriminate|]);
    intros H; first [split; assumption | exfalso; revert H; vm_compute; auto].
Qed.

(** X7: the urgency of an anomaly whose level is no member name inherited
    from [Object.prototype] is a number between 1 and 12, and only a
    critical anomaly on a known equipment reaches 12; under an inherited
    name, such as [constructor], urgency and efficiency are [NaN]. *)
Theorem urgencyScore_range (plans : list ActionPlan.t) (a : Anomaly.t) :
  (JS.inherited (Anomaly.criticalityLevel a) = false ->
   exists u,
     urgencyScore (scoreAnomaly plans a) = JS.Num u /\
     1 <= u /\ u <= 12 /\
     (12 <= u -> Anomaly.criticalityLevel a = "critical"%string /\
                 JS.truthy_string (Anomaly.equipmentId a) = true)) /\
  (JS.inherited (Anomaly.criticalityLevel a) = true ->
   urgencyScore (scoreAnomaly plans a) = JS.NaN /\
   efficiency (scoreAnomaly plans a) = JS.NaN).
Proof.
  split.
  - intros H. destruct (urgency_number plans a H) as (u & Hu & _ & H').
    exists u. split; [exact Hu | exact H'].
  - intros H. cbn [urgencyScore efficiency scoreAnomaly].
    rewrite (criticalityWeight_inherited _ H). split; reflexivity.
Qed.

Lemma urgencyScore_range_witness :
  (exists u, urgencyScore (scoreAnomaly [] critical_equipped) = JS.Num u /\
             1 <= u /\ u <= 12) /\
  efficiency (scoreAnomaly [] odd_level_anomaly) = JS.NaN.
Proof.
  split.
  - destruct (urgencyScore_range [] critical_equipped) as [H _].
    destruct (H eq_refl) as (u & Hu & H1 & H12 & _).
    exists u. auto.
  - apply (urgencyScore_range [] odd_level_anomaly). reflexivity.
Defined.

Lemma Qdiv_pos (x y : Q) : 0 < x -> 0 < y -> 0 < x / y.
Proof. intros Hx Hy. apply Qlt_shift_div_l; [exact Hy | lra]. Qed.

(** X8: with plan durations that are not negative, every anomaly has a
    positive processing time, and an anomaly whose level is no inherited
    member name has a positive efficiency, so the ranking meets no zero or
    negative priority; without a plan the efficiency is the urgency itself,
    and with whole days it never exceeds the urgency. *)
Theorem efficiency_positive (plans : list ActionPlan.t) (a : Anomaly.t) :
  (forall p, In p plans -> 0 <= ActionPlan.totalDurationDays p) ->
  0 < processingTime (scoreAnomaly plans a) /\
  (JS.inherited (Anomaly.criticalityLevel a) = false ->
   exists u e,
     urgencyScore (scoreAnomaly plans a) = JS.Num u /\
     efficiency (scoreAnomaly plans a) = JS.Num e /\
     0 < e /\
     (findActionPlan plans a = None -> e == u) /\
     (1 <= processingTime (scoreAnomaly plans a) -> e <= u)).
Proof.
  intros Hplans.
  pose proof (durationOrOne_pos plans a Hplans) as Hp.
  split; [exact Hp|].
  intros Hlevel.
  destruct (urgency_number plans a Hlevel) as (u & Hu & He & H1 & _).
  exists u, (u / processingTime (scoreAnomaly plans a)).
  split; [exact Hu|]. split; [exact He|].
  cbn [processingTime scoreAnomaly].
  split; [apply Qdiv_pos; [lra | exact Hp]|].
  split.
  - intros E. rewrite E. change (durationOrOne None) with 1.
    unfold Qdiv. change (/ 1) with 1. apply Qmult_1_r.
  - intros Hge. apply Qle_shift_div_r; [exact Hp|].
    set (t := durationOrOne _) in *. nra.
Qed.

Lemma efficiency_positive_witness :
  0 < processingTime (scoreAnomaly [three_day_plan] normal_anomaly) /\
  exists u e,
    urgencyScore (scoreAnomaly [three_day_plan] normal_anomaly) = JS.Num u /\
    efficiency (scoreAnomaly [three_day_plan] normal_anomaly) = JS.Num e /\
    0 < e /\ e <= u.
Proof.
  destruct (efficiency_positive [three_day_plan] normal_anomaly)
    as (Hp & H).
  - intros p [<-|[]]. vm_compute. discriminate.
  - split; [exact Hp|].
    destruct (H eq_refl) as (u & e & Hu & He & Hpos & _ & Hle).
    exists u, e. repeat split; try assumption.
    apply Hle. vm_compute. discriminate.
Defined.

Lemma efficiencyScoreOf_le_100 (u : Q) : efficiencyScoreOf u <= 100.
Proof.
  unfold efficiencyScoreOf. pose proof (Qabs_nonneg (85 - u)) as H.
  apply Q.max_lub; lra.
Qed.

Lemma efficiencyScoreOf_100 (u : Q) : efficiencyScoreOf u == 100 <-> u == 85.
Proof.
  unfold efficiencyScoreOf. split.
  - intros H. pose proof (Qabs_nonneg (85 - u)) as Hn.
    pose proof (Q.le_max_r 0 (100 - Qabs (85 - u))) as Hr.
    destruct (Q.max_spec 0 (100 - Qabs (85 - u))) as [[_ E]|[_ E]];
      rewrite E in H; [|lra].
    assert (Hz : Qabs (85 - u) == 0) by lra.
    revert Hz. apply Qabs_case; intros; lra.
  - intros ->. reflexivity.
Qed.

(** X9: the efficiency score of a window never exceeds 100 and is 100 at a
    utilization of 85 only; it is 0 from 185% on. *)
Theorem efficiencyScore_peak (treated : list Anomaly.t)
    (plans : list ActionPlan.t) (w : MaintenanceWindow.t) :
  let wa := analyzeWindow treated plans w in
  efficiencyScore wa <= 100 /\
  (efficiencyScore wa == 100 <-> utilization wa == 85) /\
  (185 <= utilization wa -> efficiencyScore wa == 0) /\
  0 <= overallScore wa.
Proof.
  simpl. split; [apply efficiencyScoreOf_le_100|].
  split; [apply efficiencyScoreOf_100|]. split.
  - intros H. unfold efficiencyScoreOf.
    rewrite (Qabs_neg (85 - _)) by lra.
    apply Q.max_l. lra.
  - pose proof (efficiencyScoreOf_nonneg
                  (utilizationOf (workloadOf plans (assignedAnomaliesOf treated w))
                                 (MaintenanceWindow.durationDays w))) as He.
    assert (Hb : 0 <= JS.of_nat (size (dom (criticalityBalanceOf
                                              (assignedAnomaliesOf treated w))))).
    { apply (of_nat_le 0). lia. }
    apply Qle_shift_div_l; [reflexivity|]. lra.
Qed.

Lemma efficiencyScore_peak_witness :
  utilization (analyzeWindow [long_anomaly "w-1"] [seventeen_day_plan]
                             (sample_window "w-1" 20)) == 85 /\
  efficiencyScore (analyzeWindow [long_anomaly "w-1"] [seventeen_day_plan]
                                 (sample_window "w-1" 5)) == 0.
Proof.
  split.
  - apply (efficiencyScore_peak [long_anomaly "w-1"] [seventeen_day_plan]
             (sample_window "w-1" 20)).
    vm_compute. reflexivity.
  - apply (efficiencyScore_peak [long_anomaly "w-1"] [seventeen_day_plan]
             (sample_window "w-1" 5)).
    vm_compute. discriminate.
Defined.

(** ** Windows without anomalies, and the shape of the recommendations *)

Lemma utilizationOf_zero (cap : Q) : utilizationOf 0 cap == 0.
Proof.
  unfold utilizationOf. destruct (JS.gt cap 0); [|reflexivity].
  unfold Qdiv. rewrite !Qmult_0_l. reflexivity.
Qed.

Lemma isOverloaded_Proper (wa : WindowAnalysis) (u : Q) :
  utilization wa == u -> isOverloaded wa = JS.gt u 100.
Proof.
  intros H. unfold isOverloaded.
  destruct (JS.gt u 100) eqn:E.
  - apply gt_true. apply gt_true in E. rewrite H. exact E.
  - apply gt_false. apply gt_false in E. rewrite H. exact E.
Qed.

(** X10: a window to which no anomaly is assigned has no workload and a
    utilization of 0, whatever its duration; it counts neither as overloaded
    nor as underutilized, and its overall score is 7.5. *)
Theorem empty_window_is_silent (treated : list Anomaly.t)
    (plans : list ActionPlan.t) (w : MaintenanceWindow.t) :
  assignedAnomaliesOf treated w = [] ->
  let wa := analyzeWindow treated plans w in
  totalWorkload wa = 0 /\
  utilization wa == 0 /\
  isOverloaded wa = false /\
  isUnderutilized wa = false /\
  balanceScore wa == 0 /\
  overallScore wa == 7.5.
Proof.
  intros Hempty wa.
  assert (Hu : utilization wa == 0).
  { subst wa. simpl. rewrite Hempty. apply utilizationOf_zero. }
  split; [subst wa; simpl; rewrite Hempty; reflexivity|].
  split; [exact Hu|].
  split; [rewrite (isOverloaded_Proper wa 0 Hu); reflexivity|].
  split.
  { unfold isUnderutilized. apply andb_false_iff. right.
    apply gt_false. rewrite Hu. apply Qle_refl. }
  assert (Hb : balanceScore wa == 0).
  { subst wa. simpl. rewrite Hempty. reflexivity. }
  split; [exact Hb|].
  assert (He : efficiencyScore wa == 15).
  { subst wa. simpl. simpl in Hu.
    rewrite (efficiencyScoreOf_Proper _ _ Hu). reflexivity. }
  assert (Ho : overallScore wa == (balanceScore wa + efficiencyScore wa) / 2)
    by (subst wa; reflexivity).
  rewrite Ho, Hb, He. reflexivity.
Qed.

Lemma empty_window_is_silent_witness :
  isUnderutilized (analyzeWindow [long_anomaly "w-1"] [seventeen_day_plan]
                                 (sample_window "w-2" 20)) = false.
Proof.
  apply (empty_window_is_silent [long_anomaly "w-1"] [seventeen_day_plan]
           (sample_window "w-2" 20)).
  reflexivity.
Defined.

Lemma overloaded_not_underutilized (w : WindowAnalysis) :
  isUnderutilized w = negb (isOverloaded w) && isUnderutilized w.
Proof.
  destruct (isOverloaded w) eqn:Ho; [|reflexivity].
  destruct (isUnderutilized w) eqn:Hu; [|reflexivity].
  apply isOverloaded_true in Ho. apply isUnderutilized_true in Hu.
  exfalso. lra.
Qed.

Lemma filter_disjoint_length {A : Type} (f g : A -> bool) (l : list A) :
  (forall x, g x = negb (f x) && g x) ->
  (length (List.filter f l) + length (List.filter g l) <= length l)%nat.
Proof.
  intros H. induction l as [|x l IH]; simpl; [lia|].
  rewrite H. destruct (f x), (g x); simpl; lia.
Qed.

(** X11: there are at most three recommendations, one of a kind at most, and
    they come as warning, info, error in that order; there is none exactly
    when no window is overloaded or underutilized and no critical anomaly
    waits.  No window is counted both as overloaded and as underutilized. *)
Theorem recommendations_shape (anoms : list ScoredAnomaly)
    (windows : list WindowAnalysis) :
  map rec_type (generateRecommendations anoms windows)
    `sublist_of` ["warning"; "info"; "error"]%string /\
  (length (generateRecommendations anoms windows) <= 3)%nat /\
  (generateRecommendations anoms windows = [] <->
   List.filter isOverloaded windows = [] /\
   List.filter isUnderutilized windows = [] /\
   List.filter isUnscheduledCritical anoms = []) /\
  (length (List.filter isOverloaded windows)
   + length (List.filter isUnderutilized windows) <= length windows)%nat.
Proof.
  unfold generateRecommendations, pushIfAny.
  split; [|split; [|split]].
  - destruct (List.filter isOverloaded windows),
      (List.filter isUnderutilized windows),
      (List.filter isUnscheduledCritical anoms); simpl;
      repeat first [apply sublist_nil | apply sublist_skip | apply sublist_cons].
  - destruct (List.filter isOverloaded windows),
      (List.filter isUnderutilized windows),
      (List.filter isUnscheduledCritical anoms); simpl; lia.
  - destruct (List.filter isOverloaded windows),
      (List.filter isUnderutilized windows),
      (List.filter isUnscheduledCritical anoms); simpl;
      split; first [intros (? & ? & ?) | intros ?];
      first [reflexivity | discriminate | auto].
  - apply filter_disjoint_length. apply overloaded_not_underutilized.
Qed.

Lemma recommendations_shape_witness :
  generateRecommendations [] [analysis_at 85] = [].
Proof.
  apply (recommendations_shape [] [analysis_at 85]).
  repeat split.
Defined.

(** ** The utilization shown by the window detail modal *)




Lemma filter_nonempty_none {A : Type} (f : A -> bool) (l : list A) :
  (forall x, In x l -> f x = false) -> List.filter f l = [].
Proof.
  induction l as [|x l IH]; intros H; simpl; [reflexivity|].
  rewrite (H x (or_introl eq_refl)). apply IH.
  intros y Hy. apply H. right. exact Hy.
Qed.








(** ** Levels, labels and the criticality column *)

Lemma calculateCriticalityLevel_cases (a : Anomaly.t) :
  calculateCriticalityLevel a = "critical"%string \/
  calculateCriticalityLevel a = "high"%string \/
  calculateCriticalityLevel a = "normal"%string \/
  calculateCriticalityLevel a = "low"%string.
Proof.
  unfold calculateCriticalityLevel.
  destruct (JS.ge (totalScore a) 9); [auto|].
  destruct (JS.ge (totalScore a) 7); [auto|].
  destruct (JS.ge (totalScore a) 3); auto.
Qed.

(** X13: for every anomaly the detail page finds the entry of its computed
    level, the table gives it a badge other than the default one, and the
    French label tells the four levels apart. *)
Theorem computed_level_is_known (a b : Anomaly.t) :
  (exists info, AnomalyDetail.criticalityInfo a = Some info /\
                AnomalyDetail.value info = calculateCriticalityLevel a) /\
  AnomalyTable.getBadgeVariant (calculateCriticalityLevel a)
  <> "default"%string /\
  (AnomalyTable.getCriticalityLabel (calculateCriticalityLevel a)
   = AnomalyTable.getCriticalityLabel (calculateCriticalityLevel b) ->
   calculateCriticalityLevel a = calculateCriticalityLevel b).
Proof.
  unfold AnomalyDetail.criticalityInfo.
  destruct (calculateCriticalityLevel_cases a) as [Ha|[Ha|[Ha|Ha]]];
    rewrite Ha; (split; [eexists; split; reflexivity|]);
    (split; [discriminate|]);
    destruct (calculateCriticalityLevel_cases b) as [Hb|[Hb|[Hb|Hb]]];
    rewrite Hb; intros H; first [reflexivity | discriminate H].
Qed.

Lemma computed_level_is_known_witness :
  calculateCriticalityLevel normal_anomaly
  = calculateCriticalityLevel overridden_anomaly.
Proof.
  apply (computed_level_is_known normal_anomaly overridden_anomaly).
  reflexivity.
Defined.

Lemma array_sort_ext {A : Type} (c1 c2 : A -> A -> Q) (l : list A) :
  (forall x y, Qle_bool (c1 x y) 0 = Qle_bool (c2 x y) 0) ->
  array_sort c1 l = array_sort c2 l.
Proof.
  intros H. induction l as [|x l IH]; simpl; [reflexivity|].
  rewrite IH. generalize (array_sort c2 l). intros s.
  induction s as [|y s IHs]; simpl; [reflexivity|].
  rewrite H, IHs. reflexivity.
Qed.

Lemma criticalityOrder_found (a : Anomaly.t) :
  AnomalyTable.criticalityOrder !! calculateCriticalityLevel a
  = Some (criticalityRank a) /\
  (criticalityRank a = 4 \/ criticalityRank a = 3 \/
   criticalityRank a = 2 \/ criticalityRank a = 1).
Proof.
  unfold criticalityRank.
  destruct (calculateCriticalityLevel_cases a) as [H|[H|[H|H]]]; rewrite H;
    (split; [vm_compute; reflexivity|]); vm_compute; auto.
Qed.

Lemma compareCriticality_desc_sign (a b : Anomaly.t) :
  Qle_bool (AnomalyTable.compareCriticality AnomalyTable.desc a b) 0
  = Qle_bool (criticalityRank b - criticalityRank a) 0.
Proof.
  unfold AnomalyTable.compareCriticality.
  destruct (criticalityOrder_found a) as [-> Ha].
  destruct (criticalityOrder_found b) as [-> Hb].
  destruct Ha as [-> | [-> | [-> | ->]]], Hb as [-> | [-> | [-> | ->]]];
    reflexivity.
Qed.

Lemma compareCriticality_asc_sign (a b : Anomaly.t) :
  Qle_bool (AnomalyTable.compareCriticality AnomalyTable.asc a b) 0
  = Qle_bool (- criticalityRank b - - criticalityRank a) 0.
Proof.
  unfold AnomalyTable.compareCriticality.
  destruct (criticalityOrder_found a) as [-> Ha].
  destruct (criticalityOrder_found b) as [-> Hb].
  destruct Ha as [-> | [-> | [-> | ->]]], Hb as [-> | [-> | [-> | ->]]];
    reflexivity.
Qed.

Lemma StronglySorted_weaken {A : Type} (R R' : A -> A -> Prop) (l : list A) :
  (forall x y, R x y -> R' x y) -> StronglySorted R l -> StronglySorted R' l.
Proof.
  intros H. induction 1 as [|x l Hs IH Hx]; constructor; [exact IH|].
  eapply Forall_impl; [exact Hx|]. intros y. apply H.
Qed.

(** X14: sorted on the criticality column, the table lists the same
    anomalies, from critical down to low in descending order and from low up
    to critical in ascending order; anomalies of one level keep the order
    they had, in both directions. *)
Theorem criticality_column_sorts (l : list Anomaly.t) :
  Permutation l (AnomalyTable.sortedByCriticality AnomalyTable.desc l) /\
  Permutation l (AnomalyTable.sortedByCriticality AnomalyTable.asc l) /\
  StronglySorted (fun a b => criticalityRank b <= criticalityRank a)
                 (AnomalyTable.sortedByCriticality AnomalyTable.desc l) /\
  StronglySorted (fun a b => criticalityRank a <= criticalityRank b)
                 (AnomalyTable.sortedByCriticality AnomalyTable.asc l) /\
  (forall r : Q,
     List.filter (fun a => Qeq_bool (criticalityRank a) r)
                 (AnomalyTable.sortedByCriticality AnomalyTable.desc l)
     = List.filter (fun a => Qeq_bool (criticalityRank a) r) l /\
     List.filter (fun a => Qeq_bool (criticalityRank a) r)
                 (AnomalyTable.sortedByCriticality AnomalyTable.asc l)
     = List.filter (fun a => Qeq_bool (criticalityRank a) r) l).
Proof.
  unfold AnomalyTable.sortedByCriticality.
  rewrite (array_sort_ext _ (fun a b => criticalityRank b - criticalityRank a))
    by apply compareCriticality_desc_sign.
  rewrite (array_sort_ext (AnomalyTable.compareCriticality AnomalyTable.asc)
             (fun a b => - criticalityRank b - - criticalityRank a))
    by apply compareCriticality_asc_sign.
  split; [apply array_sort_perm|]. split; [apply array_sort_perm|].
  split.
  { apply (array_sort_sorted criticalityRank). intros x y. reflexivity. }
  split.
  { eapply StronglySorted_weaken;
      [|apply (array_sort_sorted (fun a => - criticalityRank a));
        intros x y; reflexivity].
    unfold descending. intros x y H. lra. }
  intros r. split.
  - apply (array_sort_stable criticalityRank). intros x y. reflexivity.
  - pose proof (array_sort_stable (fun a => - criticalityRank a)
                  (fun a b => - criticalityRank b - - criticalityRank a)
                  (fun x y => Qeq_refl _) (- r) l) as H.
    assert (Hext : forall l' : list Anomaly.t,
              List.filter (fun a => Qeq_bool (criticalityRank a) r) l'
              = List.filter (fun a => Qeq_bool (- criticalityRank a) (- r)) l').
    { intros l'. apply filter_ext. intros a. apply eq_true_iff_eq.
      rewrite !Qeq_bool_iff. split; intros E; lra. }
    rewrite !Hext. exact H.
Qed.

(** ** Pagination of the table *)

Lemma totalPages_spec (rows : nat) (itemsPerPage : Z) :
  (0 < itemsPerPage)%Z ->
  ((AnomalyTable.totalPages rows itemsPerPage - 1) * itemsPerPage
   < Z.of_nat rows
   <= AnomalyTable.totalPages rows itemsPerPage * itemsPerPage)%Z.
Proof.
  intros Hk. unfold AnomalyTable.totalPages.
  set (x := inject_Z (Z.of_nat rows) / inject_Z itemsPerPage).
  assert (HkQ : 0 < inject_Z itemsPerPage).
  { change 0 with (inject_Z 0). rewrite <- Zlt_Qlt. exact Hk. }
  assert (Hx : x * inject_Z itemsPerPage == inject_Z (Z.of_nat rows)).
  { subst x. field. intros E. rewrite E in HkQ. exact (Qlt_irrefl 0 HkQ). }
  pose proof (Qle_ceiling x) as Hup.
  pose proof (Qceiling_lt x) as Hlow.
  split.
  - rewrite Zlt_Qlt, inject_Z_mult, <- Hx.
    apply Qmult_lt_r; assumption.
  - rewrite Zle_Qle, inject_Z_mult, <- Hx.
    apply Qmult_le_r; assumption.
Qed.

Lemma page_is_a_chunk {A : Type} (l : list A) (currentPage itemsPerPage : Z) :
  (0 < itemsPerPage)%Z -> (1 <= currentPage)%Z ->
  AnomalyTable.paginatedAnomalies l currentPage itemsPerPage
  = take (Z.to_nat itemsPerPage)
         (drop (Z.to_nat ((currentPage - 1) * itemsPerPage)) l).
Proof.
  intros Hk Hp.
  unfold AnomalyTable.paginatedAnomalies, AnomalyTable.endIndex,
    AnomalyTable.startIndex, JSArray.slice.
  set (s := ((currentPage - 1) * itemsPerPage)%Z).
  assert (Hs : (0 <= s)%Z) by (subst s; nia).
  set (len := Z.of_nat (length l)).
  destruct (Z.ltb_spec s 0) as [?|_]; [lia|].
  destruct (Z.ltb_spec (s + itemsPerPage) 0) as [?|_]; [lia|].
  destruct (Z_lt_le_dec s len) as [Hin|Hout].
  - rewrite (Z.min_l s len) by lia.
    destruct (Z_le_gt_dec (s + itemsPerPage) len) as [Hfull|Hlast].
    + rewrite Z.min_l by lia. f_equal. lia.
    + rewrite Z.min_r by lia.
      rewrite !take_ge; [reflexivity| |]; rewrite length_drop; subst len; lia.
  - rewrite (Z.min_r s len) by lia. rewrite (Z.min_r _ len) by lia.
    rewrite Z.sub_diag. simpl.
    rewrite (drop_ge l (Z.to_nat s)) by (subst len; lia).
    rewrite take_nil. reflexivity.
Qed.

(** X15: a page of the table holds at most [itemsPerPage] rows; it holds
    some exactly when its number is at most the number of pages, and every
    page before the last one is full. *)
Theorem page_sizes {A : Type} (l : list A) (currentPage itemsPerPage : Z) :
  (0 < itemsPerPage)%Z -> (1 <= currentPage)%Z ->
  let page := AnomalyTable.paginatedAnomalies l currentPage itemsPerPage in
  let pages := AnomalyTable.totalPages (length l) itemsPerPage in
  (Z.of_nat (length page) <= itemsPerPage)%Z /\
  (page <> [] <-> (currentPage <= pages)%Z) /\
  ((currentPage < pages)%Z -> Z.of_nat (length page) = itemsPerPage) /\
  (currentPage = pages ->
   Z.of_nat (length page)
   = (Z.of_nat (length l) - (pages - 1) * itemsPerPage)%Z).
Proof.
  intros Hk Hp page pages. subst page.
  rewrite (page_is_a_chunk l currentPage itemsPerPage Hk Hp).
  pose proof (totalPages_spec (length l) itemsPerPage Hk) as Hspec.
  fold pages in Hspec.
  assert (Hlen : length (take (Z.to_nat itemsPerPage)
                   (drop (Z.to_nat ((currentPage - 1) * itemsPerPage)) l))
                 = Nat.min (Z.to_nat itemsPerPage)
                     (length l - Z.to_nat ((currentPage - 1) * itemsPerPage))).
  { rewrite length_take, length_drop. reflexivity. }
  split; [rewrite Hlen; lia|]. split; [|split].
  - rewrite <- length_zero_iff_nil, Hlen. split; intros H.
    + destruct (Z_le_gt_dec currentPage pages) as [?|Hgt]; [assumption|].
      exfalso. apply H. nia.
    + nia.
  - intros Hlt. rewrite Hlen. nia.
  - intros ->. rewrite Hlen. nia.
Qed.

Lemma page_sizes_witness :
  AnomalyTable.paginatedAnomalies [1; 2; 3; 4; 5; 6; 7]%nat 2 5 <> [] /\
  Z.of_nat (length (AnomalyTable.paginatedAnomalies
                      [1; 2; 3; 4; 5; 6; 7]%nat 1 5)) = 5%Z.
Proof.
  destruct (page_sizes [1; 2; 3; 4; 5; 6; 7]%nat 2 5) as (_ & H & _);
    [lia | lia |].
  split.
  - apply H. vm_compute. discriminate.
  - apply (page_sizes [1; 2; 3; 4; 5; 6; 7]%nat 1 5); [lia | lia |].
    vm_compute. reflexivity.
Defined.

Lemma chunks_concat {A : Type} (l : list A) (k m : nat) :
  concat (map (fun p => take k (drop ((p - 1) * k) l)) (seq 1 m))
  = take (m * k) l.
Proof.
  induction m as [|m IH].
  - simpl. rewrite take_0. reflexivity.
  - rewrite seq_S, map_app, concat_app, IH. simpl. rewrite app_nil_r.
    replace (m - 0)%nat with m by lia.
    rewrite take_take_drop. f_equal. lia.
Qed.

(** X16: the pages 1 to [totalPages], one after the other, are the sorted
    list: every row is on one page, in order, and none is shown twice. *)
Theorem pages_cover_the_list {A : Type} (l : list A) (itemsPerPage : Z) :
  (0 < itemsPerPage)%Z ->
  concat (map (fun p => AnomalyTable.paginatedAnomalies l (Z.of_nat p)
                          itemsPerPage)
              (seq 1 (Z.to_nat (AnomalyTable.totalPages (length l)
                                                        itemsPerPage))))
  = l.
Proof.
  intros Hk.
  pose proof (totalPages_spec (length l) itemsPerPage Hk) as Hspec.
  set (pages := AnomalyTable.totalPages (length l) itemsPerPage) in *.
  erewrite map_ext_in.
  - rewrite (chunks_concat l (Z.to_nat itemsPerPage) (Z.to_nat pages)).
    apply take_ge. nia.
  - intros p Hp. apply in_seq in Hp.
    rewrite page_is_a_chunk by lia. do 2 f_equal. nia.
Qed.

Lemma pages_cover_the_list_witness :
  concat (map (fun p => AnomalyTable.paginatedAnomalies
                          [1; 2; 3; 4; 5; 6; 7]%nat (Z.of_nat p) 5)
              (seq 1 (Z.to_nat (AnomalyTable.totalPages 7 5))))
  = [1; 2; 3; 4; 5; 6; 7]%nat.
Proof.
  apply (pages_cover_the_list [1; 2; 3; 4; 5; 6; 7]%nat 5). lia.
Defined.

(** ** Page buttons and column headers *)

Lemma pageButtons_consecutive (totalPages currentPage first : Z) :
  (forall i, AnomalyTable.pageNumber totalPages currentPage i = first + i)%Z ->
  AnomalyTable.pageButtons totalPages currentPage
  = map (fun i => (first + Z.of_nat i)%Z)
        (seq 0 (Z.to_nat (Z.min 5 totalPages))).
Proof.
  intros H. unfold AnomalyTable.pageButtons, JSArray.from_length.
  apply map_ext. intros i. apply H.
Qed.

(** X17: with the current page among the pages, the buttons show
    [min 5 totalPages] consecutive page numbers, all of them existing pages,
    the current page among them; "Précédent" and "Suivant" lead to existing
    pages too, and do not move beyond the first and the last page. *)
Theorem navigation_stays_within_pages (totalPages currentPage : Z) :
  (1 <= currentPage <= totalPages)%Z ->
  (exists first,
     AnomalyTable.pageButtons totalPages currentPage
     = map (fun i => (first + Z.of_nat i)%Z)
           (seq 0 (Z.to_nat (Z.min 5 totalPages))) /\
     (1 <= first)%Z /\
     (first + Z.min 5 totalPages - 1 <= totalPages)%Z /\
     (first <= currentPage < first + Z.min 5 totalPages)%Z) /\
  In currentPage (AnomalyTable.pageButtons totalPages currentPage) /\
  (forall n, In n (AnomalyTable.pageButtons totalPages currentPage) ->
             (1 <= n <= totalPages)%Z) /\
  (1 <= AnomalyTable.previousPage currentPage <= totalPages)%Z /\
  (1 <= AnomalyTable.nextPage totalPages currentPage <= totalPages)%Z /\
  AnomalyTable.previousPage 1 = 1%Z /\
  AnomalyTable.nextPage totalPages totalPages = totalPages.
Proof.
  intros Hp.
  assert (Hfirst : exists first,
            (forall i, AnomalyTable.pageNumber totalPages currentPage i
                       = first + i)%Z /\
            (1 <= first)%Z /\
            (first + Z.min 5 totalPages - 1 <= totalPages)%Z /\
            (first <= currentPage < first + Z.min 5 totalPages)%Z).
  { unfold AnomalyTable.pageNumber.
    destruct (Z.leb_spec totalPages 5).
    { exists 1%Z. split; [intros i; lia | lia]. }
    destruct (Z.leb_spec currentPage 3).
    { exists 1%Z. split; [intros i; lia | lia]. }
    destruct (Z.leb_spec (totalPages - 2) currentPage).
    { exists (totalPages - 4)%Z. split; [intros i; lia | lia]. }
    exists (currentPage - 2)%Z. split; [intros i; lia | lia]. }
  destruct Hfirst as (first & Hnum & H1 & H2 & H3).
  pose proof (pageButtons_consecutive _ _ _ Hnum) as Hbs.
  split; [exists first; auto|].
  rewrite Hbs. split; [|split].
  - apply in_map_iff. exists (Z.to_nat (currentPage - first)).
    split; [lia|]. apply in_seq. lia.
  - intros n Hn. apply in_map_iff in Hn. destruct Hn as (i & <- & Hi).
    apply in_seq in Hi. lia.
  - unfold AnomalyTable.previousPage, AnomalyTable.nextPage. lia.
Qed.

Lemma navigation_stays_within_pages_witness :
  In 7%Z (AnomalyTable.pageButtons 12 7) /\
  AnomalyTable.pageButtons 12 7 = [5; 6; 7; 8; 9]%Z.
Proof.
  split; [|reflexivity].
  apply (navigation_stays_within_pages 12 7). lia.
Defined.

(** X18: a click on a column header always returns to page 1.  A click on
    the active column reverses the direction and a second click restores it;
    a click on another column selects it, descending for the criticality
    column and ascending for any other. *)
Theorem handleSort_toggles (field : string) (st : AnomalyTable.SortState) :
  AnomalyTable.currentPage (AnomalyTable.handleSort field st) = 1%Z /\
  AnomalyTable.sortField (AnomalyTable.handleSort field st) = field /\
  (AnomalyTable.sortField st = field ->
   AnomalyTable.sortDirection (AnomalyTable.handleSort field st)
   <> AnomalyTable.sortDirection st /\
   AnomalyTable.sortDirection
     (AnomalyTable.handleSort field (AnomalyTable.handleSort field st))
   = AnomalyTable.sortDirection st) /\
  (AnomalyTable.sortField st <> field ->
   AnomalyTable.sortDirection (AnomalyTable.handleSort field st)
   = if String.eqb field "criticality" then AnomalyTable.desc
     else AnomalyTable.asc).
Proof.
  unfold AnomalyTable.handleSort.
  destruct (String.eqb_spec (AnomalyTable.sortField st) field) as [E|E].
  - simpl. rewrite E, String.eqb_refl. simpl.
    repeat split; try congruence;
      destruct (AnomalyTable.sortDirection st); congruence.
  - simpl. repeat split; congruence.
Qed.

Lemma handleSort_toggles_witness :
  AnomalyTable.sortDirection
    (AnomalyTable.handleSort "criticality"
       (AnomalyTable.handleSort "criticality"
          (AnomalyTable.mkSortState "criticality" AnomalyTable.desc 3)))
  = AnomalyTable.desc /\
  AnomalyTable.sortDirection
    (AnomalyTable.handleSort "createdAt"
       (AnomalyTable.mkSortState "criticality" AnomalyTable.desc 3))
  = AnomalyTable.asc.
Proof.
  split.
  - apply (handleSort_toggles "criticality"
             (AnomalyTable.mkSortState "criticality" AnomalyTable.desc 3)).
    reflexivity.
  - apply (handleSort_toggles "createdAt"
             (AnomalyTable.mkSortState "criticality" AnomalyTable.desc 3)).
    discriminate.
Defined.

(** ** The action plan modal *)

Lemma local_id_prefix (x : string) :
  String.prefix "action-" ("action-" +:+ x) = true.
Proof. simpl. destruct x; reflexivity. Qed.

(** X19: without an action text or without a responsible the form adds
    nothing; otherwise it appends exactly one action, whose identifier is a
    local one made of the current time, with the absent fields defaulted;
    the action is tracked as local and reaches the store when the plan is
    saved. *)
Theorem addAction_appends_one (now : Z) (st : ActionPlanModal.State) :
  (JS.truthy_string (ActionPlanModal.new_action (ActionPlanModal.newAction st))
   = false \/
   JS.truthy_string
     (ActionPlanModal.new_responsable (ActionPlanModal.newAction st)) = false ->
   ActionPlanModal.addAction now st = st) /\
  (JS.truthy_string (ActionPlanModal.new_action (ActionPlanModal.newAction st))
   = true ->
   JS.truthy_string
     (ActionPlanModal.new_responsable (ActionPlanModal.newAction st)) = true ->
   let st' := ActionPlanModal.addAction now st in
   exists a,
     ActionPlanModal.actions (ActionPlanModal.actionPlan st')
     = ActionPlanModal.actions (ActionPlanModal.actionPlan st) ++ [a] /\
     ActionItem.id a = ("action-" +:+ pretty now)%string /\
     ActionItem.dureeJours a
     = JS.or_number
         (ActionPlanModal.new_dureeJours (ActionPlanModal.newAction st)) 0 /\
     ActionItem.statut a
     = ActionPlanModal.or_string
         (ActionPlanModal.new_statut (ActionPlanModal.newAction st)) "planifie" /\
     ActionPlanModal.locallyAddedActions st'
     = ActionPlanModal.locallyAddedActions st ++ [ActionItem.id a] /\
     ActionPlanModal.locallyRemovedActions st'
     = ActionPlanModal.locallyRemovedActions st /\
     In a (ActionPlanModal.actionsCreatedOnSave st'
           ++ ActionPlanModal.actionsAddedOnSave st')).
Proof.
  unfold ActionPlanModal.addAction. split.
  - intros [H|H]; rewrite H; simpl; [reflexivity|].
    rewrite orb_true_r. reflexivity.
  - intros Ha Hr. rewrite Ha, Hr. cbn [negb orb].
    eexists. cbn -[pretty String.prefix].
    repeat (split; [reflexivity|]).
    unfold ActionPlanModal.actionsCreatedOnSave,
      ActionPlanModal.actionsAddedOnSave, ActionPlanModal.isNewPlan.
    cbn -[pretty String.prefix].
    destruct (String.prefix "plan-" (ActionPlanModal.plan_id
                                       (ActionPlanModal.actionPlan st))).
    + rewrite app_nil_r. apply in_or_app. right. left. reflexivity.
    + cbn [app]. apply filter_In. split.
      * apply in_or_app. right. left. reflexivity.
      * cbn -[pretty String.prefix]. rewrite local_id_prefix.
        apply bool_decide_eq_true_2. set_solver.
Qed.

Lemma addAction_appends_one_witness :
  ActionPlanModal.addAction 1700000000000
    (ActionPlanModal.mkState
       (ActionPlanModal.actionPlan open_modal) [] []
       ActionPlanModal.emptyForm)
  = ActionPlanModal.mkState
      (ActionPlanModal.actionPlan open_modal) [] []
      ActionPlanModal.emptyForm /\
  length (ActionPlanModal.actions
            (ActionPlanModal.actionPlan
               (ActionPlanModal.addAction 1700000000000 open_modal))) = 2%nat.
Proof.
  split.
  - apply (addAction_appends_one 1700000000000). left. reflexivity.
  - destruct (addAction_appends_one 1700000000000 open_modal) as [_ H].
    destruct (H eq_refl eq_refl) as (a & -> & _). reflexivity.
Defined.

Lemma withoutAction_fresh (i : string) (l : list ActionItem.t) :
  ~ In i (map ActionItem.id l) -> ActionPlanModal.withoutAction i l = l.
Proof.
  unfold ActionPlanModal.withoutAction.
  induction l as [|a l IH]; simpl; intros H; [reflexivity|].
  destruct (String.eqb_spec (ActionItem.id a) i) as [E|E]; [tauto|].
  simpl. rewrite IH by tauto. reflexivity.
Qed.

Lemma filter_other_ids (i : string) (l : list string) :
  ~ In i l -> List.filter (fun id => negb (String.eqb id i)) l = l.
Proof.
  induction l as [|x l IH]; simpl; intros H; [reflexivity|].
  destruct (String.eqb_spec x i) as [E|E]; [tauto|].
  simpl. rewrite IH by tauto. reflexivity.
Qed.

(** X20: adding an action and removing it again restores the actions of the
    plan and both tracking lists, provided its identifier is not in use
    already; nothing is queued for deletion in the store. *)
Theorem add_then_remove (now : Z) (st : ActionPlanModal.State) :
  JS.truthy_string (ActionPlanModal.new_action (ActionPlanModal.newAction st))
  = true ->
  JS.truthy_string
    (ActionPlanModal.new_responsable (ActionPlanModal.newAction st)) = true ->
  let i := ("action-" +:+ pretty now)%string in
  let st' := ActionPlanModal.removeAction i (ActionPlanModal.addAction now st) in
  ActionPlanModal.locallyRemovedActions st'
  = ActionPlanModal.locallyRemovedActions st /\
  (~ In i (map ActionItem.id
               (ActionPlanModal.actions (ActionPlanModal.actionPlan st))) ->
   ActionPlanModal.actions (ActionPlanModal.actionPlan st')
   = ActionPlanModal.actions (ActionPlanModal.actionPlan st)) /\
  (~ In i (ActionPlanModal.locallyAddedActions st) ->
   ActionPlanModal.locallyAddedActions st'
   = ActionPlanModal.locallyAddedActions st).
Proof.
  intros Ha Hr i st'. subst st'.
  unfold ActionPlanModal.addAction. rewrite Ha, Hr. cbn [negb orb].
  unfold ActionPlanModal.removeAction.
  cbn -[pretty String.eqb]. fold i.
  rewrite bool_decide_eq_true_2 by set_solver.
  cbn -[pretty String.eqb]. split; [reflexivity|]. split.
  - intros Hfresh. unfold ActionPlanModal.withoutAction.
    rewrite List.filter_app. cbn -[pretty String.eqb]. fold i.
    rewrite String.eqb_refl. cbn [negb]. rewrite app_nil_r.
    apply withoutAction_fresh. exact Hfresh.
  - intros Hfresh. rewrite List.filter_app. cbn -[pretty String.eqb].
    rewrite String.eqb_refl. cbn [negb]. rewrite app_nil_r.
    apply filter_other_ids. exact Hfresh.
Qed.

Lemma add_then_remove_witness :
  ActionPlanModal.actions
    (ActionPlanModal.actionPlan
       (ActionPlanModal.removeAction "action-1700000000000"
          (ActionPlanModal.addAction 1700000000000 open_modal)))
  = [stored_action].
Proof.
  destruct (add_then_remove 1700000000000 open_modal eq_refl eq_refl)
    as (_ & H & _).
  apply H. vm_compute. intros [H'|[]]. discriminate H'.
Defined.

(** X21: once an action is removed, the plan holds the other actions, in
    their order, and none with that identifier.  An action that is not
    tracked as local is queued for deletion; a local identifier is never
    sent to the store for deletion, whether it is tracked or not. *)
Theorem removeAction_queues_stored_only (i : string)
    (st : ActionPlanModal.State) :
  let st' := ActionPlanModal.removeAction i st in
  ActionPlanModal.actions (ActionPlanModal.actionPlan st')
  = List.filter (fun a => negb (String.eqb (ActionItem.id a) i))
                (ActionPlanModal.actions (ActionPlanModal.actionPlan st)) /\
  (forall a, In a (ActionPlanModal.actions (ActionPlanModal.actionPlan st')) ->
             ActionItem.id a <> i) /\
  (~ In i (ActionPlanModal.locallyAddedActions st) ->
   ActionPlanModal.locallyRemovedActions st'
   = ActionPlanModal.locallyRemovedActions st ++ [i] /\
   ActionPlanModal.locallyAddedActions st'
   = ActionPlanModal.locallyAddedActions st) /\
  (In i (ActionPlanModal.locallyAddedActions st) ->
   ActionPlanModal.locallyRemovedActions st'
   = ActionPlanModal.locallyRemovedActions st /\
   ~ In i (ActionPlanModal.locallyAddedActions st')) /\
  (String.prefix "action-" i = true ->
   ActionPlanModal.actionsDeletedOnSave st'
   = ActionPlanModal.actionsDeletedOnSave st) /\
  (String.prefix "action-" i = false ->
   ~ In i (ActionPlanModal.locallyAddedActions st) ->
   In i (ActionPlanModal.actionsDeletedOnSave st')).
Proof.
  intros st'. subst st'. unfold ActionPlanModal.removeAction.
  destruct (bool_decide (i ∈ ActionPlanModal.locallyAddedActions st)) eqn:D;
    [apply bool_decide_eq_true in D | apply bool_decide_eq_false in D];
    rewrite list_elem_of_In in D; cbn -[String.prefix];
    (split; [reflexivity|]);
    (split; [intros a Ha; apply filter_In in Ha; destruct Ha as [_ Ha];
             apply negb_true_iff, String.eqb_neq in Ha; exact Ha|]).
  - split; [intros H; contradiction|].
    split.
    { intros _. split; [reflexivity|]. intros H. apply filter_In in H.
      destruct H as [_ H]. rewrite String.eqb_refl in H. discriminate. }
    split; [reflexivity | intros _ H; contradiction].
  - split; [intros _; split; reflexivity|].
    split; [intros H; contradiction|].
    unfold ActionPlanModal.actionsDeletedOnSave. cbn -[String.prefix].
    rewrite List.filter_app. cbn -[String.prefix]. split.
    + intros ->. cbn [negb]. rewrite app_nil_r. reflexivity.
    + intros -> _. cbn [negb]. apply in_or_app. right. left. reflexivity.
Qed.

Lemma removeAction_queues_stored_only_witness :
  In "7f3a"%string
     (ActionPlanModal.actionsDeletedOnSave
        (ActionPlanModal.removeAction "7f3a" open_modal)) /\
  ActionPlanModal.actionsDeletedOnSave
    (ActionPlanModal.removeAction "action-17" open_modal)
  = ActionPlanModal.actionsDeletedOnSave open_modal.
Proof.
  destruct (removeAction_queues_stored_only "7f3a" open_modal)
    as (_ & _ & _ & _ & _ & H1).
  destruct (removeAction_queues_stored_only "action-17" open_modal)
    as (_ & _ & _ & _ & H2 & _).
  split.
  - apply H1; [reflexivity | intros []].
  - apply H2. reflexivity.
Defined.

Lemma fold_days_acc (l : list ActionItem.t) (acc : Q) :
  fold_left (fun sum action => sum + ActionItem.dureeJours action) l acc
  == acc + fold_left (fun sum action => sum + ActionItem.dureeJours action) l 0.
Proof.
  revert acc. induction l as [|a l IH]; intros acc; simpl.
  - lra.
  - rewrite IH, (IH (0 + _)). lra.
Qed.

Lemma fold_days_app (l1 l2 : list ActionItem.t) :
  fold_left (fun sum action => sum + ActionItem.dureeJours action) (l1 ++ l2) 0
  == fold_left (fun sum action => sum + ActionItem.dureeJours action) l1 0
     + fold_left (fun sum action => sum + ActionItem.dureeJours action) l2 0.
Proof. rewrite fold_left_app. apply fold_days_acc. Qed.

(** X22: recomputing the totals after an action is added raises the days of
    the plan by the days of that action (0 when the form leaves them out).
    A plan without actions totals 0 days, which the planning page counts as
    one day of processing; the page never reads a processing time of 0 from
    a plan of the modal. *)
Theorem totals_follow_the_actions (now now' : Z)
    (st : ActionPlanModal.State) :
  (JS.truthy_string (ActionPlanModal.new_action (ActionPlanModal.newAction st))
   = true ->
   JS.truthy_string
     (ActionPlanModal.new_responsable (ActionPlanModal.newAction st)) = true ->
   ActionPlanModal.totalDurationDays
     (ActionPlanModal.actionPlan
        (ActionPlanModal.calculateTotalDuration now'
           (ActionPlanModal.addAction now st)))
   == ActionPlanModal.totalDurationDays
        (ActionPlanModal.actionPlan
           (ActionPlanModal.calculateTotalDuration now st))
      + JS.or_number
          (ActionPlanModal.new_dureeJours (ActionPlanModal.newAction st)) 0) /\
  (ActionPlanModal.actions (ActionPlanModal.actionPlan st) = [] ->
   ActionPlanModal.totalDurationDays
     (ActionPlanModal.actionPlan
        (ActionPlanModal.calculateTotalDuration now st)) = 0 /\
   durationOrOne
     (Some (planOfDraft
              (ActionPlanModal.actionPlan
                 (ActionPlanModal.calculateTotalDuration now st)))) = 1) /\
  ~ durationOrOne
      (Some (planOfDraft
               (ActionPlanModal.actionPlan
                  (ActionPlanModal.calculateTotalDuration now st)))) == 0.
Proof.
  split; [|split].
  - intros Ha Hr. unfold ActionPlanModal.addAction. rewrite Ha, Hr.
    cbn [negb orb]. cbn -[pretty fold_left].
    rewrite fold_days_app. cbn -[pretty]. lra.
  - intros H. unfold ActionPlanModal.calculateTotalDuration. rewrite H.
    split; reflexivity.
  - apply durationOrOne_nonzero.
Qed.

Lemma totals_follow_the_actions_witness :
  ActionPlanModal.totalDurationDays
    (ActionPlanModal.actionPlan
       (ActionPlanModal.calculateTotalDuration 2
          (ActionPlanModal.addAction 1 open_modal))) == 5.
Proof.
  destruct (totals_follow_the_actions 1 2 open_modal) as (H & _).
  rewrite (H eq_refl eq_refl). vm_compute. reflexivity.
Defined.

(** ** The dashboard *)

Lemma of_nat_pos (n : nat) : (0 < n)%nat -> 0 < JS.of_nat n.
Proof.
  intros H. unfold JS.of_nat. change 0 with (inject_Z 0).
  rewrite <- Zlt_Qlt. lia.
Qed.

Lemma percentage_range (count totalCount : nat) :
  (count <= totalCount)%nat ->
  0 <= Dashboard.percentage count totalCount /\
  Dashboard.percentage count totalCount <= 100.
Proof.
  intros H. unfold Dashboard.percentage.
  destruct (Nat.ltb_spec 0 totalCount) as [Hpos|_]; [|split; discriminate].
  pose proof (of_nat_pos totalCount Hpos) as Ht.
  pose proof (of_nat_le 0 count ltac:(lia)) as Hc0.
  pose proof (of_nat_le count totalCount H) as Hc.
  change (JS.of_nat 0) with 0 in Hc0.
  assert (H0 : 0 <= JS.of_nat count / JS.of_nat totalCount).
  { apply Qle_shift_div_l; [exact Ht | lra]. }
  assert (H1 : JS.of_nat count / JS.of_nat totalCount <= 1).
  { apply Qle_shift_div_r; [exact Ht | lra]. }
  split; lra.
Qed.

Lemma percentage_all (n : nat) :
  (0 < n)%nat -> Dashboard.percentage n n == 100.
Proof.
  intros H. unfold Dashboard.percentage.
  destruct (Nat.ltb_spec 0 n) as [_|?]; [|lia].
  pose proof (of_nat_pos n H) as Ht. field. lra.
Qed.

Lemma percentage_none (n : nat) : Dashboard.percentage 0 n == 0.
Proof.
  unfold Dashboard.percentage. destruct (0 <? n)%nat; [|reflexivity].
  unfold Qdiv. change (JS.of_nat 0) with 0. rewrite !Qmult_0_l. reflexivity.
Qed.

(** X23: on the dashboard every anomaly is either open or closed, the
    critical ones and those of the week are among them, and the treatment
    rate is a percentage: 0 when nothing is closed (or nothing exists), 100
    when everything is, and never outside 0 to 100. *)
Theorem anomaly_indicators (now : Z) (f : Dashboard.Fetched) :
  let k := Dashboard.computeKPIs now f in
  let closed :=
    length (List.filter Dashboard.isClosed (Dashboard.fetched_anomalies f)) in
  Dashboard.totalAnomalies k = (Dashboard.openAnomalies k + closed)%nat /\
  (Dashboard.criticalAnomalies k <= Dashboard.totalAnomalies k)%nat /\
  (Dashboard.newAnomaliesThisWeek k <= Dashboard.totalAnomalies k)%nat /\
  (Dashboard.resolvedAnomaliesThisWeek k <= closed)%nat /\
  0 <= Dashboard.treatmentRate k /\ Dashboard.treatmentRate k <= 100 /\
  (closed = O -> Dashboard.treatmentRate k == 0) /\
  (Dashboard.openAnomalies k = O -> (0 < Dashboard.totalAnomalies k)%nat ->
   Dashboard.treatmentRate k == 100).
Proof.
  intros k closed. subst k closed. cbn [Dashboard.computeKPIs
    Dashboard.totalAnomalies Dashboard.openAnomalies
    Dashboard.criticalAnomalies Dashboard.newAnomaliesThisWeek
    Dashboard.resolvedAnomaliesThisWeek Dashboard.treatmentRate].
  set (l := Dashboard.fetched_anomalies f).
  assert (Hsplit : (length (List.filter Dashboard.isClosed l)
                    + length (List.filter
                                (fun a => negb (Dashboard.isClosed a)) l)
                    = length l)%nat).
  { apply filter_complement_length. reflexivity. }
  split; [lia|].
  split; [apply filter_length_le|].
  split; [apply filter_length_le|].
  split.
  { rewrite <- (filter_filter_andb Dashboard.isClosed). apply filter_length_le. }
  destruct (percentage_range (length (List.filter Dashboard.isClosed l))
              (length l) ltac:(lia)) as [H0 H100].
  split; [exact H0|]. split; [exact H100|]. split.
  - intros ->. apply percentage_none.
  - intros Hopen Hpos.
    replace (length (List.filter Dashboard.isClosed l)) with (length l) by lia.
    apply percentage_all. exact Hpos.
Qed.

Lemma anomaly_indicators_witness :
  Dashboard.treatmentRate
    (Dashboard.computeKPIs 100000000
       (Dashboard.mkFetched
          [Dashboard.mkRow
             (Anomaly.mk "a-1" "closed" "high" None None
                         None None None None None None) None None] [] []))
  == 100.
Proof.
  apply (anomaly_indicators 100000000
           (Dashboard.mkFetched
              [Dashboard.mkRow
                 (Anomaly.mk "a-1" "closed" "high" None None
                             None None None None None None) None None] [] []));
    vm_compute; [reflexivity | lia].
Defined.

Lemma countItem_total (now : Z) (c : Dashboard.Counters) (item : ActionItem.t) :
  Dashboard.total (Dashboard.countItem now c item) = S (Dashboard.total c) /\
  (Dashboard.completed c + Dashboard.inProgress c + Dashboard.planned c
   + Dashboard.overDue c <= Dashboard.total c ->
   Dashboard.completed (Dashboard.countItem now c item)
   + Dashboard.inProgress (Dashboard.countItem now c item)
   + Dashboard.planned (Dashboard.countItem now c item)
   + Dashboard.overDue (Dashboard.countItem now c item)
   <= Dashboard.total (Dashboard.countItem now c item))%nat.
Proof.
  unfold Dashboard.countItem.
  destruct (String.eqb _ "termine"); [simpl; split; lia|].
  destruct (String.eqb _ "en_cours"); [simpl; split; lia|].
  destruct (String.eqb _ "planifie"); [simpl; split; lia|].
  destruct (String.eqb _ "reporte"); [|simpl; split; lia].
  destruct (ActionItem.dateFin item) as [d|]; [|simpl; split; lia].
  destruct (d <? now)%Z; simpl; split; lia.
Qed.

Lemma countItems_total (now : Z) (items : list ActionItem.t)
    (c : Dashboard.Counters) :
  Dashboard.total (fold_left (Dashboard.countItem now) items c)
  = (Dashboard.total c + length items)%nat /\
  (Dashboard.completed c + Dashboard.inProgress c + Dashboard.planned c
   + Dashboard.overDue c <= Dashboard.total c ->
   let c' := fold_left (Dashboard.countItem now) items c in
   Dashboard.completed c' + Dashboard.inProgress c' + Dashboard.planned c'
   + Dashboard.overDue c' <= Dashboard.total c')%nat.
Proof.
  revert c. induction items as [|item items IH]; intros c; simpl.
  - split; [lia | auto].
  - destruct (countItem_total now c item) as [Ht Hinv].
    destruct (IH (Dashboard.countItem now c item)) as [IHt IHinv].
    split; [rewrite IHt, Ht; lia|].
    intros H. apply IHinv, Hinv, H.
Qed.

Lemma countActionItems_fold (now : Z)
    (plans : list (option Dashboard.FetchedPlan)) (c : Dashboard.Counters) :
  fold_left (Dashboard.countPlan now) plans c
  = fold_left (Dashboard.countItem now) (fetchedItems plans) c.
Proof.
  revert c. induction plans as [|plan plans IH]; intros c; [reflexivity|].
  unfold fetchedItems in *. cbn [map concat fold_left].
  rewrite fold_left_app, IH. f_equal.
  destruct plan as [[[items|]]|]; reflexivity.
Qed.

Lemma completionRate_range (now : Z) (f : Dashboard.Fetched) :
  0 <= Dashboard.actionItemsCompletionRate (Dashboard.computeKPIs now f) /\
  Dashboard.actionItemsCompletionRate (Dashboard.computeKPIs now f) <= 100.
Proof.
  cbn [Dashboard.computeKPIs Dashboard.actionItemsCompletionRate].
  unfold Dashboard.countActionItems. rewrite countActionItems_fold.
  destruct (countItems_total now (fetchedItems (Dashboard.fetched_plans f))
              (Dashboard.mkCounters 0 0 0 0 0)) as [_ Hinv].
  specialize (Hinv ltac:(simpl; lia)). cbv zeta in Hinv.
  apply percentage_range. lia.
Qed.

(** X24: the loop over the action items counts every item of every plan
    found, once; the finished, running, planned and overdue items together
    never exceed that total (postponed items that are not overdue are in no
    group), and the completion rate lies between 0 and 100. *)
Theorem action_item_counters (now : Z) (f : Dashboard.Fetched) :
  let k := Dashboard.computeKPIs now f in
  Dashboard.totalActionItems k
  = length (fetchedItems (Dashboard.fetched_plans f)) /\
  (Dashboard.completedActionItems k + Dashboard.inProgressActionItems k
   + Dashboard.plannedActionItems k + Dashboard.overDueActionItems k
   <= Dashboard.totalActionItems k)%nat /\
  0 <= Dashboard.actionItemsCompletionRate k /\
  Dashboard.actionItemsCompletionRate k <= 100.
Proof.
  intros k. subst k. cbn [Dashboard.computeKPIs Dashboard.totalActionItems
    Dashboard.completedActionItems Dashboard.inProgressActionItems
    Dashboard.plannedActionItems Dashboard.overDueActionItems
    Dashboard.actionItemsCompletionRate].
  unfold Dashboard.countActionItems. rewrite countActionItems_fold.
  destruct (countItems_total now (fetchedItems (Dashboard.fetched_plans f))
              (Dashboard.mkCounters 0 0 0 0 0)) as [Ht Hinv].
  specialize (Hinv ltac:(simpl; lia)). cbv zeta in Hinv.
  split; [rewrite Ht; reflexivity|]. split; [exact Hinv|].
  apply percentage_range. lia.
Qed.

(** X25: the operational efficiency is a weighted mean of three percentages
    and stays between 0 and 100. *)
Theorem operationalEfficiency_range (now : Z) (f : Dashboard.Fetched) :
  0 <= Dashboard.operationalEfficiency (Dashboard.computeKPIs now f) /\
  Dashboard.operationalEfficiency (Dashboard.computeKPIs now f) <= 100.
Proof.
  cbn [Dashboard.computeKPIs Dashboard.operationalEfficiency].
  match goal with
  | |- 0 <= ?s * 0.4 + ?q * 0.4 + ?r * 0.2 /\ _ =>
      assert (Hs : 0 <= s /\ s <= 100);
      [|assert (Hq : 0 <= q /\ q <= 100);
        [|assert (Hr : 0 <= r /\ r <= 100);
          [|set (s' := s) in *; set (q' := q) in *; set (r' := r) in *]]]
  end.
  - apply percentage_range, filter_length_le.
  - apply completionRate_range.
  - apply percentage_range, filter_length_le.
  - split; lra.
Qed.

(** When a service fails the dashboard shows zeros, and so it does for an
    empty set of anomalies. *)
Lemma indicators_of_nothing (now : Z) (ws : list MaintenanceWindow.t) :
  Dashboard.calculateKPIs now None = Dashboard.zeroKPIs /\
  let k := Dashboard.calculateKPIs now (Some (Dashboard.mkFetched [] [] ws)) in
  Dashboard.totalAnomalies k = O /\
  Dashboard.totalActionItems k = O /\
  Dashboard.treatmentRate k = 0 /\
  Dashboard.actionItemsCompletionRate k = 0 /\
  Dashboard.averageResolutionTime k = 0 /\
  Dashboard.operationalEfficiency k == 0 /\
  Dashboard.change (Dashboard.monthlyTrend k) = 0.
Proof.
  split; [reflexivity|]. simpl. repeat split.
Qed.

(** ** Creating a window from the modal *)

(** X26: the page adds its temporary window to the window store whether the
    engine succeeds or fails; that window is planned, not auto-created and
    never of type "arret".  On success the chosen anomalies refer to the
    engine's window, so the temporary window holds none of them unless the
    two identifiers coincide; on failure no anomaly changes. *)
Theorem create_window_keeps_temporary
    (engine : list string -> list ActionPlan.t -> option MaintenanceWindow.t)
    (now : Z) (data : WindowCreationData) (ctx : DataContext) :
  let temp := temporaryWindow now data in
  let ctx' := applyEffects ctx (handleCreateWindowFromModal engine now data ctx) in
  maintenanceWindows ctx' = maintenanceWindows ctx ++ [temp] /\
  MaintenanceWindow.type temp <> "arret"%string /\
  MaintenanceWindow.status temp = "planned"%string /\
  MaintenanceWindow.autoCreated temp = false /\
  (forall serverWindow,
     engine (autoAssignAnomalies data) (actionPlans ctx) = Some serverWindow ->
     (forall a, In a (anomalies ctx') ->
                In (Anomaly.id a) (autoAssignAnomalies data) ->
                Anomaly.maintenanceWindowId a
                = Some (MaintenanceWindow.id serverWindow)) /\
     (MaintenanceWindow.id serverWindow <> MaintenanceWindow.id temp ->
      (forall a, In a (anomalies ctx) ->
                 Anomaly.maintenanceWindowId a
                 <> Some (MaintenanceWindow.id temp)) ->
      assignedAnomaliesOf (anomalies ctx') temp = [])) /\
  (engine (autoAssignAnomalies data) (actionPlans ctx) = None ->
   anomalies ctx' = anomalies ctx).
Proof.
  intros temp ctx'. subst ctx'. unfold handleCreateWindowFromModal.
  fold temp.
  change (applyEffects ctx (AddMaintenanceWindow temp :: ?es))
    with (applyEffects (applyEffect ctx (AddMaintenanceWindow temp)) es).
  split.
  { destruct (engine _ _) as [sw|]; [|reflexivity].
    rewrite applyEffects_app, update_all. reflexivity. }
  split.
  { subst temp. unfold temporaryWindow. simpl.
    destruct (String.eqb_spec (creation_type data) "arret");
      [discriminate | assumption]. }
  split; [reflexivity|]. split; [reflexivity|]. split.
  - intros sw ->. rewrite applyEffects_app, update_all. simpl. split.
    + intros a' Ha' Hid. apply in_map_iff in Ha'.
      destruct Ha' as (a & <- & Ha).
      destruct (bool_decide (Anomaly.id a ∈ autoAssignAnomalies data)) eqn:D.
      * reflexivity.
      * apply bool_decide_eq_false in D. exfalso. apply D.
        apply list_elem_of_In. exact Hid.
    + intros Hne Hfree. apply filter_nonempty_none.
      intros a' Ha'. apply in_map_iff in Ha'. destruct Ha' as (a & <- & Ha).
      destruct (bool_decide (Anomaly.id a ∈ autoAssignAnomalies data)).
      * apply assignedTo_moved_out. exact Hne.
      * apply assignedTo_false. apply Hfree. exact Ha.
  - intros ->. reflexivity.
Qed.

Lemma create_window_keeps_temporary_witness :
  assignedAnomaliesOf
    (anomalies (applyEffects planning_context
                  (handleCreateWindowFromModal obliging_engine 17 stop_request
                                               planning_context)))
    (temporaryWindow 17 stop_request) = [] /\
  anomalies (applyEffects planning_context
               (handleCreateWindowFromModal (fun _ _ => None) 17 stop_request
                                            planning_context))
  = anomalies planning_context.
Proof.
  destruct (create_window_keeps_temporary obliging_engine 17 stop_request
              planning_context) as (_ & _ & _ & _ & H & _).
  destruct (H (sample_window "w-srv" 2) eq_refl) as [_ H'].
  split.
  - apply H'.
    + vm_compute. discriminate.
    + intros a [<-|[<-|[]]]; discriminate.
  - apply (create_window_keeps_temporary (fun _ _ => None) 17 stop_request
             planning_context).
    reflexivity.
Defined.

(** ** The quoted columns of the export *)

Lemma doubleQuotes_inj (s t : string) :
  Anomalies.doubleQuotes s = Anomalies.doubleQuotes t -> s = t.
Proof.
  revert t. induction s as [|c s IH]; intros [|d t]; simpl.
  - reflexivity.
  - destruct (Ascii.eqb d Anomalies.quote); discriminate.
  - destruct (Ascii.eqb c Anomalies.quote); discriminate.
  - destruct (Ascii.eqb_spec c Anomalies.quote) as [Ec|Ec],
      (Ascii.eqb_spec d Anomalies.quote) as [Ed|Ed]; intros H.
    + injection H as H. rewrite Ec, Ed, (IH t H). reflexivity.
    + injection H as H1 _. congruence.
    + injection H as H1 _. congruence.
    + injection H as H1 H2. rewrite H1, (IH t H2). reflexivity.
Qed.

Lemma append_quote_inj (s t : string) :
  (s +:+ String Anomalies.quote EmptyString
   = t +:+ String Anomalies.quote EmptyString)%string -> s = t.
Proof.
  revert t. induction s as [|c s IH]; intros [|d t]; simpl; intros H.
  - reflexivity.
  - injection H as _ H. destruct t; discriminate.
  - injection H as _ H. destruct s; discriminate.
  - injection H as H1 H2. rewrite H1, (IH t H2). reflexivity.
Qed.

Lemma count_quotes_even (s : string) :
  Nat.Even (length (List.filter (Ascii.eqb Anomalies.quote)
                      (String.list_ascii_of_string (Anomalies.doubleQuotes s)))).
Proof.
  induction s as [|c s IH]; cbn -[Ascii.eqb Anomalies.quote].
  - exists O. reflexivity.
  - destruct (Ascii.eqb_spec c Anomalies.quote) as [E|E];
      cbn -[Ascii.eqb Anomalies.quote].
    + rewrite Ascii.eqb_refl. cbn -[Ascii.eqb Anomalies.quote].
      destruct IH as [k Hk]. exists (S k). rewrite Hk. lia.
    + rewrite (proj2 (Ascii.eqb_neq Anomalies.quote c)) by congruence.
      exact IH.
Qed.

(** X27: a quoted column of the export begins and ends with a double quote
    and holds an even number of them in between, and the quoting loses
    nothing: two texts with the same quoted column are the same text (an
    absent text being the empty one). *)
Theorem quoted_column_is_faithful (text text' : option string) :
  (exists body,
     Anomalies.quotedColumn text
     = String Anomalies.quote (body +:+ String Anomalies.quote EmptyString) /\
     Nat.Even (length (List.filter (Ascii.eqb Anomalies.quote)
                         (String.list_ascii_of_string body)))) /\
  (Anomalies.quotedColumn text = Anomalies.quotedColumn text' ->
   ActionPlanModal.or_string text "" = ActionPlanModal.or_string text' "").
Proof.
  unfold Anomalies.quotedColumn. split.
  - eexists. split; [reflexivity|]. apply count_quotes_even.
  - intros H. injection H as H.
    apply append_quote_inj, doubleQuotes_inj in H. exact H.
Qed.

Lemma quoted_column_is_faithful_witness :
  ActionPlanModal.or_string None "" = ActionPlanModal.or_string (Some "") "".
Proof.
  apply (quoted_column_is_faithful None (Some ""%string)). reflexivity.
Defined.
